(** * auth_backend: credential / OTP lifecycle and Google identity resolution

    A shallow embedding of the repository layer (UserRepository over the
    Prisma client), the e-mail service, AuthService, the check-email
    controller and the two Google identity resolvers of config/passport.ts,
    followed by the properties of the specification.

    Conventions of the embedding.
    - A [Date] is the number of milliseconds since the epoch.
    - The user table is a list of rows; every Prisma call is one atomic
      access to it.  A call that writes appends the new table to [commits],
      so the states that other requests can observe while a service method
      runs are exactly the entries of that journal.
    - The clock is an input: every read of the clock in the sources
      ([Date.now()], [new Date()]) is an argument of its own, two reads in
      one function included.  The instant a Prisma call receives is the one
      Prisma stamps the row with where the schema asks for a stamp.
    - Collaborators outside the repository (bcrypt, the JWT signer, the mail
      transport) and the one schema attribute that the sources do not show
      (whether [updatedAt] is maintained by Prisma) are fields of the class
      [Collaborators]. *)

From Stdlib Require Import ZArith List String Ascii Bool Lia.
Import ListNotations.

Open Scope string_scope.
Open Scope Z_scope.

(** ** JavaScript values *)

Definition Date := Z.

(** Truthiness of a string and of a nullable string. *)
Definition truthy (s : string) : bool := negb (s =? "")%string.

Definition truthy_opt (o : option string) : bool :=
  match o with
  | Some s => truthy s
  | None => false
  end.

(** [x || null] on a nullable string. *)
Definition or_null (o : option string) : option string :=
  if truthy_opt o then o else None.

(** [x || d] on a nullable string. *)
Definition or_default (o : option string) (d : string) : string :=
  match o with
  | Some s => if truthy s then s else d
  | None => d
  end.

Definition opt_string_eqb (a b : option string) : bool :=
  match a, b with
  | Some x, Some y => (x =? y)%string
  | None, None => true
  | _, _ => false
  end.

(** ** Number.prototype.toString for integers *)

Definition digitChar (d : Z) : ascii := ascii_of_nat (48 + Z.to_nat d).

Fixpoint digitsFuel (fuel : nat) (n : Z) : string :=
  match fuel with
  | O => ""
  | S f =>
      if n <? 10 then String (digitChar n) ""
      else digitsFuel f (n / 10) ++ String (digitChar (n mod 10)) ""
  end.

Definition digits (n : Z) : string := digitsFuel (S (Z.to_nat (Z.log2 n))) n.

Definition toString (n : Z) : string :=
  if n <? 0 then "-" ++ digits (- n) else digits n.

(** Reading a decimal numeral back (the value of the digits, most
    significant first). *)
Definition digitVal (c : ascii) : Z := Z.of_nat (nat_of_ascii c) - 48.

Fixpoint parseDigits (acc : Z) (s : string) : Z :=
  match s with
  | EmptyString => acc
  | String c s' => parseDigits (10 * acc + digitVal c) s'
  end.

Definition isDigit (c : ascii) : bool :=
  let v := digitVal c in (0 <=? v) && (v <=? 9).

Fixpoint allDigits (s : string) : bool :=
  match s with
  | EmptyString => true
  | String c s' => isDigit c && allDigits s'
  end.

(** ** The user table *)

Record User := {
  id : Z;
  name : string;
  email : string;
  password : option string;
  googleId : option string;
  provider : option string;
  profilePicture : option string;
  emailVerified : bool;
  resetOTP : option string;
  otpCreatedAt : option Date;
  otpExpiresAt : option Date;
  passwordUpdatedAt : option Date;
  createdAt : Date;
  updatedAt : Date
}.

(** One entry of the [data] object of [prisma.user.update]. *)
Inductive Field :=
| Fname (v : string)
| Fpassword (v : option string)
| FgoogleId (v : option string)
| Fprovider (v : option string)
| FprofilePicture (v : option string)
| FemailVerified (v : bool)
| FresetOTP (v : option string)
| FotpCreatedAt (v : option Date)
| FotpExpiresAt (v : option Date)
| FpasswordUpdatedAt (v : option Date)
| FupdatedAt (v : Date).

Definition set_field (f : Field) (u : User) : User :=
  match f with
  | Fname v =>
      {| id := id u; name := v; email := email u; password := password u;
         googleId := googleId u; provider := provider u;
         profilePicture := profilePicture u; emailVerified := emailVerified u;
         resetOTP := resetOTP u; otpCreatedAt := otpCreatedAt u;
         otpExpiresAt := otpExpiresAt u;
         passwordUpdatedAt := passwordUpdatedAt u;
         createdAt := createdAt u; updatedAt := updatedAt u |}
  | Fpassword v =>
      {| id := id u; name := name u; email := email u; password := v;
         googleId := googleId u; provider := provider u;
         profilePicture := profilePicture u; emailVerified := emailVerified u;
         resetOTP := resetOTP u; otpCreatedAt := otpCreatedAt u;
         otpExpiresAt := otpExpiresAt u;
         passwordUpdatedAt := passwordUpdatedAt u;
         createdAt := createdAt u; updatedAt := updatedAt u |}
  | FgoogleId v =>
      {| id := id u; name := name u; email := email u; password := password u;
         googleId := v; provider := provider u;
         profilePicture := profilePicture u; emailVerified := emailVerified u;
         resetOTP := resetOTP u; otpCreatedAt := otpCreatedAt u;
         otpExpiresAt := otpExpiresAt u;
         passwordUpdatedAt := passwordUpdatedAt u;
         createdAt := createdAt u; updatedAt := updatedAt u |}
  | Fprovider v =>
      {| id := id u; name := name u; email := email u; password := password u;
         googleId := googleId u; provider := v;
         profilePicture := profilePicture u; emailVerified := emailVerified u;
         resetOTP := resetOTP u; otpCreatedAt := otpCreatedAt u;
         otpExpiresAt := otpExpiresAt u;
         passwordUpdatedAt := passwordUpdatedAt u;
         createdAt := createdAt u; updatedAt := updatedAt u |}
  | FprofilePicture v =>
      {| id := id u; name := name u; email := email u; password := password u;
         googleId := googleId u; provider := provider u;
         profilePicture := v; emailVerified := emailVerified u;
         resetOTP := resetOTP u; otpCreatedAt := otpCreatedAt u;
         otpExpiresAt := otpExpiresAt u;
         passwordUpdatedAt := passwordUpdatedAt u;
         createdAt := createdAt u; updatedAt := updatedAt u |}
  | FemailVerified v =>
      {| id := id u; name := name u; email := email u; password := password u;
         googleId := googleId u; provider := provider u;
         profilePicture := profilePicture u; emailVerified := v;
         resetOTP := resetOTP u; otpCreatedAt := otpCreatedAt u;
         otpExpiresAt := otpExpiresAt u;
         passwordUpdatedAt := passwordUpdatedAt u;
         createdAt := createdAt u; updatedAt := updatedAt u |}
  | FresetOTP v =>
      {| id := id u; name := name u; email := email u; password := password u;
         googleId := googleId u; provider := provider u;
         profilePicture := profilePicture u; emailVerified := emailVerified u;
         resetOTP := v; otpCreatedAt := otpCreatedAt u;
         otpExpiresAt := otpExpiresAt u;
         passwordUpdatedAt := passwordUpdatedAt u;
         createdAt := createdAt u; updatedAt := updatedAt u |}
  | FotpCreatedAt v =>
      {| id := id u; name := name u; email := email u; password := password u;
         googleId := googleId u; provider := provider u;
         profilePicture := profilePicture u; emailVerified := emailVerified u;
         resetOTP := resetOTP u; otpCreatedAt := v;
         otpExpiresAt := otpExpiresAt u;
         passwordUpdatedAt := passwordUpdatedAt u;
         createdAt := createdAt u; updatedAt := updatedAt u |}
  | FotpExpiresAt v =>
      {| id := id u; name := name u; email := email u; password := password u;
         googleId := googleId u; provider := provider u;
         profilePicture := profilePicture u; emailVerified := emailVerified u;
         resetOTP := resetOTP u; otpCreatedAt := otpCreatedAt u;
         otpExpiresAt := v;
         passwordUpdatedAt := passwordUpdatedAt u;
         createdAt := createdAt u; updatedAt := updatedAt u |}
  | FpasswordUpdatedAt v =>
      {| id := id u; name := name u; email := email u; password := password u;
         googleId := googleId u; provider := provider u;
         profilePicture := profilePicture u; emailVerified := emailVerified u;
         resetOTP := resetOTP u; otpCreatedAt := otpCreatedAt u;
         otpExpiresAt := otpExpiresAt u;
         passwordUpdatedAt := v;
         createdAt := createdAt u; updatedAt := updatedAt u |}
  | FupdatedAt v =>
      {| id := id u; name := name u; email := email u; password := password u;
         googleId := googleId u; provider := provider u;
         profilePicture := profilePicture u; emailVerified := emailVerified u;
         resetOTP := resetOTP u; otpCreatedAt := otpCreatedAt u;
         otpExpiresAt := otpExpiresAt u;
         passwordUpdatedAt := passwordUpdatedAt u;
         createdAt := createdAt u; updatedAt := v |}
  end.

(** Applying a [data] object: later entries win, as in an object literal. *)
Definition apply_data (data : list Field) (u : User) : User :=
  fold_left (fun acc f => set_field f acc) data u.

Definition sets_updatedAt (f : Field) : bool :=
  match f with
  | FupdatedAt _ => true
  | _ => false
  end.

(** The [where] clause of the calls in the sources: one unique column. *)
Inductive Where :=
| ById (i : Z)
| ByEmail (e : string)
| ByGoogleId (g : string).

Definition matches (w : Where) (u : User) : bool :=
  match w with
  | ById i => id u =? i
  | ByEmail e => (email u =? e)%string
  | ByGoogleId g => opt_string_eqb (googleId u) (Some g)
  end.

Fixpoint update_first (sel : User -> bool) (f : User -> User) (l : list User)
  : list User :=
  match l with
  | [] => []
  | r :: rs => if sel r then f r :: rs else r :: update_first sel f rs
  end.

Fixpoint remove_first (sel : User -> bool) (l : list User) : list User :=
  match l with
  | [] => []
  | r :: rs => if sel r then rs else r :: remove_first sel rs
  end.

(** ** The world: the table, the id sequence, the connection, the journal *)

Record World := {
  rows : list User;
  nextId : Z;
  online : bool;
  commits : list (list User)
}.

Definition commit (t : list User) (w : World) : World :=
  {| rows := t; nextId := nextId w; online := online w;
     commits := (commits w ++ [t])%list |}.

(** ** Exceptions and the monad of a request handler *)

Inductive Exn :=
| PrismaError (code : string)
| JsError (message : string).

Definition exn_message (e : Exn) : string :=
  match e with
  | PrismaError c => "Prisma error " ++ c
  | JsError m => m
  end.

Definition has_code (e : Exn) (c : string) : bool :=
  match e with
  | PrismaError c' => (c' =? c)%string
  | JsError _ => false
  end.

Inductive Result (A : Type) :=
| Ok (a : A)
| Throw (e : Exn).

Arguments Ok {A} a.
Arguments Throw {A} e.

Definition M (A : Type) : Type := World -> Result A * World.

Definition ret {A} (a : A) : M A := fun w => (Ok a, w).

Definition throw {A} (e : Exn) : M A := fun w => (Throw e, w).

Definition bind {A B} (m : M A) (k : A -> M B) : M B :=
  fun w =>
    match m w with
    | (Ok a, w') => k a w'
    | (Throw e, w') => (Throw e, w')
    end.

Definition try_catch {A} (m : M A) (handler : Exn -> M A) : M A :=
  fun w =>
    match m w with
    | (Ok a, w') => (Ok a, w')
    | (Throw e, w') => handler e w'
    end.

Notation "x <- m ;; k" := (bind m (fun x => k))
  (at level 61, m at next level, right associativity).

(** Prisma error codes used by the sources: P2002 unique constraint,
    P2025 record not found; P1001 (database unreachable) stands for every
    failure of the connection. *)
Definition P2002 : Exn := PrismaError "P2002".
Definition P2025 : Exn := PrismaError "P2025".
Definition P1001 : Exn := PrismaError "P1001".

Definition googleId_taken (g : option string) (others : list User) : bool :=
  match g with
  | Some _ => existsb (fun r => opt_string_eqb (googleId r) g) others
  | None => false
  end.

Definition email_taken (e : string) (l : list User) : bool :=
  existsb (fun r => (email r =? e)%string) l.

Definition prisma_findUnique (wh : Where) : M (option User) :=
  fun w =>
    if online w then (Ok (find (matches wh) (rows w)), w)
    else (Throw P1001, w).

Definition prisma_delete (wh : Where) : M User :=
  fun w =>
    if online w then
      match find (matches wh) (rows w) with
      | None => (Throw P2025, w)
      | Some u => (Ok u, commit (remove_first (matches wh) (rows w)) w)
      end
    else (Throw P1001, w).

(** ** Values exchanged with the callers *)

(** [ApiResponse<T>] of interfaces/index.ts; [AuthResponse] is the instance
    whose payload is a user and a token. *)
Record ApiResponse (T : Type) := {
  success : bool;
  message : string;
  data : option T;
  error : option string
}.

Arguments success {T} _.
Arguments message {T} _.
Arguments data {T} _.
Arguments error {T} _.

Module SafeUser.
Record t := {
  id : Z;
  name : string;
  email : string;
  provider : string;
  profilePicture : string;
  emailVerified : bool;
  createdAt : Date;
  updatedAt : Date;
  passwordUpdatedAt : option Date
}.
End SafeUser.

Record AuthData := { user : SafeUser.t; token : string }.

Definition AuthResponse := ApiResponse AuthData.

Definition failure {T} (msg : string) : ApiResponse T :=
  {| success := false; message := msg; data := None; error := None |}.

Definition failure_with {T} (msg err : string) : ApiResponse T :=
  {| success := false; message := msg; data := None; error := Some err |}.

Module OTPVerificationResult.
Record t := { valid : bool; message : string }.
End OTPVerificationResult.

Module EmailResult.
Record t := {
  success : bool;
  otp : option string;
  messageId : option string;
  error : option string
}.
End EmailResult.

Record EmailOptions := { to : string; subject : string; text : string }.

Record CreateUserData := {
  cu_name : string;
  cu_email : string;
  cu_password : option string;
  cu_googleId : option string;
  cu_provider : option string;
  cu_profilePicture : option string;
  cu_emailVerified : option bool
}.

Record RegisterRequest := {
  rr_name : string; rr_email : string; rr_password : string
}.

Record ResetPasswordRequest := {
  rp_email : string; rp_otp : string; rp_newPassword : string
}.

Module GoogleProfile.
Record t := {
  id : string;
  emails : option (list string);
  displayName : string;
  photos : option (list string)
}.
End GoogleProfile.

Inductive AuthProvider := local | google.

Record ExpressUser := {
  eu_id : Z; eu_email : string; eu_name : string;
  eu_provider : option AuthProvider
}.

(** The arguments a Passport verify callback hands to [done]. *)
Record Done := { done_error : option Exn; done_user : option ExpressUser }.

(** utils/constants.ts *)
Module RESPONSE_MESSAGES.
Definition USER_CREATED := "Account created successfully!".
Definition LOGIN_SUCCESS := "Login successful!".
Definition PASSWORD_RESET_SUCCESS :=
  "Password has been reset successfully! You can now login with your new password.".
Definition OTP_SENT :=
  "If an account with this email exists, you will receive a password reset OTP shortly.".
Definition INVALID_CREDENTIALS := "Email or password is wrong".
Definition USER_EXISTS := "A user with this email already exists".
Definition SERVER_ERROR := "Something went wrong. Please try again.".
Definition EMAIL_SEND_FAILED := "Failed to send email. Please try again.".
End RESPONSE_MESSAGES.

Module HTTP_STATUS.
Definition OK := 200.
Definition BAD_REQUEST := 400.
Definition INTERNAL_SERVER_ERROR := 500.
End HTTP_STATUS.

(** Collaborators the core consumes. [updatedAt_auto] says whether the
    Prisma schema (not part of the sources at hand) marks [updatedAt] with
    [@updatedAt]. *)
Class Collaborators := {
  bcrypt_hash : string -> string;
  bcrypt_compare : string -> string -> bool;
  generateToken : Z -> string -> string -> string;
  sendMail : EmailOptions -> Result string;
  updatedAt_auto : bool
}.

Section Service.

Context {C : Collaborators}.

(** The row written by an update: with [@updatedAt] Prisma stamps the row
    unless the data object sets the column itself. *)
Definition written (data : list Field) (now : Date) (u : User) : User :=
  if updatedAt_auto && negb (existsb sets_updatedAt data)
  then apply_data data (set_field (FupdatedAt now) u)
  else apply_data data u.

Definition prisma_update (wh : Where) (data : list Field) (now : Date)
  : M User :=
  fun w =>
    if online w then
      match find (matches wh) (rows w) with
      | None => (Throw P2025, w)
      | Some u =>
          let u' := written data now u in
          if googleId_taken (googleId u')
               (remove_first (matches wh) (rows w))
             && negb (opt_string_eqb (googleId u') (googleId u))
          then (Throw P2002, w)
          else (Ok u', commit (update_first (matches wh) (fun _ => u') (rows w)) w)
      end
    else (Throw P1001, w).

(** The [data] object of [prisma.user.create] in the sources. *)
Record CreateData := {
  c_name : string;
  c_email : string;
  c_password : option string;
  c_googleId : option string;
  c_provider : string;
  c_profilePicture : option string;
  c_emailVerified : bool
}.

Definition prisma_create (d : CreateData) (now : Date) : M User :=
  fun w =>
    if online w then
      if email_taken (c_email d) (rows w)
         || googleId_taken (c_googleId d) (rows w)
      then (Throw P2002, w)
      else
        let u := {| id := nextId w; name := c_name d; email := c_email d;
                    password := c_password d; googleId := c_googleId d;
                    provider := Some (c_provider d);
                    profilePicture := c_profilePicture d;
                    emailVerified := c_emailVerified d;
                    resetOTP := None; otpCreatedAt := None;
                    otpExpiresAt := None; passwordUpdatedAt := None;
                    createdAt := now; updatedAt := now |} in
        (Ok u,
         {| rows := (rows w ++ [u])%list; nextId := nextId w + 1;
            online := online w;
            commits := (commits w ++ [rows w ++ [u]])%list |})
    else (Throw P1001, w).

(** ** UserRepository (features/auth/models) *)

Definition create (userData : CreateUserData) (now : Date) : M User :=
  try_catch
    (prisma_create
       {| c_name := cu_name userData;
          c_email := cu_email userData;
          c_password := or_null (cu_password userData);
          c_googleId := or_null (cu_googleId userData);
          c_provider := or_default (cu_provider userData) "local";
          c_profilePicture := or_null (cu_profilePicture userData);
          c_emailVerified :=
            match cu_emailVerified userData with
            | Some b => b
            | None => false
            end |} now)
    (fun error =>
       if has_code error "P2002"
       then throw (JsError "A user with this email already exists")
       else throw error).

Definition findByEmail (email : string) : M (option User) :=
  try_catch (prisma_findUnique (ByEmail email)) (fun error => throw error).

Definition findByGoogleId (googleId : string) : M (option User) :=
  try_catch (prisma_findUnique (ByGoogleId googleId)) (fun error => throw error).

Definition updatePassword (email hashedPassword : string) (now : Date)
  : M (option User) :=
  try_catch
    (updatedUser <- prisma_update (ByEmail email)
                      [Fpassword (Some hashedPassword);
                       FpasswordUpdatedAt (Some now)] now ;;
     ret (Some updatedUser))
    (fun error => if has_code error "P2025" then ret None else throw error).

Definition OTP_WINDOW : Z := 10 * 60 * 1000.

(** [storeOTP] reads the clock twice: [dateNow] is what [Date.now()]
    returns for the expiry, [newDate] what [new Date()] returns for
    [otpCreatedAt]. *)
Definition storeOTP (email otp : string) (dateNow newDate : Date) : M bool :=
  try_catch
    (let expirationTime := dateNow + OTP_WINDOW in
     _ <- prisma_update (ByEmail email)
            [FresetOTP (Some otp);
             FotpCreatedAt (Some newDate);
             FotpExpiresAt (Some expirationTime)] newDate ;;
     ret true)
    (fun error => if has_code error "P2025" then ret false else throw error).

Definition verifyOTP (email otp : string) (currentTime : Date)
  : M OTPVerificationResult.t :=
  try_catch
    (user <- prisma_findUnique (ByEmail email) ;;
     match user with
     | None =>
         ret {| OTPVerificationResult.valid := false;
                OTPVerificationResult.message := "User not found" |}
     | Some user =>
         if negb (truthy_opt (resetOTP user)) then
           ret {| OTPVerificationResult.valid := false;
                  OTPVerificationResult.message :=
                    "No OTP found. Please request a new one." |}
         else if match otpExpiresAt user with
                 | None => true
                 | Some expires => expires <? currentTime
                 end then
           ret {| OTPVerificationResult.valid := false;
                  OTPVerificationResult.message :=
                    "OTP has expired. Please request a new one." |}
         else if negb (opt_string_eqb (resetOTP user) (Some otp)) then
           ret {| OTPVerificationResult.valid := false;
                  OTPVerificationResult.message :=
                    "Invalid OTP code. Please check and try again." |}
         else
           ret {| OTPVerificationResult.valid := true;
                  OTPVerificationResult.message :=
                    "OTP verified successfully" |}
     end)
    (fun error => throw error).

Definition clearOTP (email : string) (now : Date) : M bool :=
  try_catch
    (_ <- prisma_update (ByEmail email)
            [FresetOTP None; FotpCreatedAt None; FotpExpiresAt None] now ;;
     ret true)
    (fun error => if has_code error "P2025" then ret false else throw error).


Definition deleteUser (i : Z) : M bool :=
  try_catch
    (_ <- prisma_delete (ById i) ;; ret true)
    (fun error => if has_code error "P2025" then ret false else throw error).

(** ** EmailService (utils/emailService.ts) *)

(** [crypto.randomInt(min, max)] returns an integer [r] with
    [min <= r < max]; the value drawn is an input of the model. *)
Definition randomInt_min : Z := 100000.
Definition randomInt_max : Z := 999999.

Definition randomInt_returns (r : Z) : Prop :=
  randomInt_min <= r < randomInt_max.

Definition generateOTP (randomNumber : Z) : string := toString randomNumber.

Definition nl : string := String (ascii_of_nat 10) "".

Definition generatePlainTextEmail (name otp : string) : string :=
  "Hello " ++ name ++ "," ++ nl ++ nl
  ++ "You have requested to reset your password for your Basic Auth System account."
  ++ nl ++ nl
  ++ "Your OTP (One-Time Password) is: " ++ otp ++ nl ++ nl
  ++ "This OTP will expire in 10 minutes for security reasons." ++ nl ++ nl
  ++ "If you did not request this password reset, please ignore this email."
  ++ nl ++ nl ++ "Best regards," ++ nl ++ "Basic Auth System Team".

(** The HTML alternative of the message carries the same two values and is
    left out of [EmailOptions]. *)
Definition sendOTPEmail (email name : string) (randomNumber : Z)
  : EmailResult.t :=
  let otp := generateOTP randomNumber in
  let mailOptions :=
    {| to := email;
       subject := "Password Reset - OTP Verification";
       text := generatePlainTextEmail name otp |} in
  match sendMail mailOptions with
  | Ok messageId =>
      {| EmailResult.success := true;
         EmailResult.otp := Some otp;
         EmailResult.messageId := Some messageId;
         EmailResult.error := None |}
  | Throw e =>
      {| EmailResult.success := false;
         EmailResult.otp := None;
         EmailResult.messageId := None;
         EmailResult.error := Some (exn_message e) |}
  end.

(** ** AuthService (features/auth/services) *)

Definition safeUser (u : User) : SafeUser.t :=
  {| SafeUser.id := id u;
     SafeUser.name := name u;
     SafeUser.email := email u;
     SafeUser.provider := or_default (provider u) "local";
     SafeUser.profilePicture := or_default (profilePicture u) "";
     SafeUser.emailVerified := emailVerified u;
     SafeUser.createdAt := createdAt u;
     SafeUser.updatedAt := updatedAt u;
     SafeUser.passwordUpdatedAt := passwordUpdatedAt u |}.

Definition authSuccess (msg : string) (u : User) (providerClaim : string)
  : AuthResponse :=
  {| success := true;
     message := msg;
     data := Some {| user := safeUser u;
                     token := generateToken (id u) (email u) providerClaim |};
     error := None |}.

Definition register (d : RegisterRequest) (now : Date) : M AuthResponse :=
  try_catch
    (existingUser <- findByEmail (rr_email d) ;;
     match existingUser with
     | Some _ => ret (failure RESPONSE_MESSAGES.USER_EXISTS)
     | None =>
         let hashedPassword := bcrypt_hash (rr_password d) in
         newUser <- create {| cu_name := rr_name d;
                              cu_email := rr_email d;
                              cu_password := Some hashedPassword;
                              cu_googleId := None;
                              cu_provider := Some "local";
                              cu_profilePicture := None;
                              cu_emailVerified := Some false |} now ;;
         ret (authSuccess RESPONSE_MESSAGES.USER_CREATED newUser "local")
     end)
    (fun error =>
       ret (failure_with RESPONSE_MESSAGES.SERVER_ERROR (exn_message error))).

Definition login (email password_ : string) : M AuthResponse :=
  try_catch
    (user <- findByEmail email ;;
     match user with
     | None => ret (failure RESPONSE_MESSAGES.INVALID_CREDENTIALS)
     | Some user =>
         match password user with
         | Some stored =>
             if truthy stored then
               if negb (bcrypt_compare password_ stored) then
                 ret (failure RESPONSE_MESSAGES.INVALID_CREDENTIALS)
               else
                 ret (authSuccess RESPONSE_MESSAGES.LOGIN_SUCCESS user
                        (or_default (provider user) "local"))
             else ret (failure "Please sign in using Google OAuth")
         | None => ret (failure "Please sign in using Google OAuth")
         end
     end)
    (fun error =>
       ret (failure_with RESPONSE_MESSAGES.SERVER_ERROR (exn_message error))).

Definition forgotPassword (email : string) (randomNumber : Z)
  (dateNow newDate : Date) : M AuthResponse :=
  try_catch
    (user <- findByEmail email ;;
     match user with
     | Some user =>
         let emailResult := sendOTPEmail email (name user) randomNumber in
         match EmailResult.otp emailResult with
         | Some otp =>
             if EmailResult.success emailResult && truthy otp then
               otpStored <- storeOTP email otp dateNow newDate ;;
               if negb otpStored then
                 ret (failure "Failed to process password reset request")
               else ret {| success := true;
                           message := RESPONSE_MESSAGES.OTP_SENT;
                           data := None; error := None |}
             else ret (failure RESPONSE_MESSAGES.EMAIL_SEND_FAILED)
         | None => ret (failure RESPONSE_MESSAGES.EMAIL_SEND_FAILED)
         end
     | None =>
         ret {| success := true; message := RESPONSE_MESSAGES.OTP_SENT;
                data := None; error := None |}
     end)
    (fun _ => ret (failure RESPONSE_MESSAGES.SERVER_ERROR)).

(** [resetPassword] awaits three repository calls; [tVerify], [tUpdate] and
    [tClear] are the instants at which they run. *)
Definition resetPassword (d : ResetPasswordRequest)
  (tVerify tUpdate tClear : Date) : M AuthResponse :=
  try_catch
    (otpVerification <- verifyOTP (rp_email d) (rp_otp d) tVerify ;;
     if negb (OTPVerificationResult.valid otpVerification) then
       ret (failure (OTPVerificationResult.message otpVerification))
     else
       let hashedPassword := bcrypt_hash (rp_newPassword d) in
       updatedUser <- updatePassword (rp_email d) hashedPassword tUpdate ;;
       match updatedUser with
       | None => ret (failure "Failed to update password")
       | Some updatedUser =>
           _ <- clearOTP (rp_email d) tClear ;;
           ret (authSuccess RESPONSE_MESSAGES.PASSWORD_RESET_SUCCESS
                  updatedUser (or_default (provider updatedUser) "local"))
       end)
    (fun error =>
       ret (failure_with RESPONSE_MESSAGES.SERVER_ERROR (exn_message error))).

Definition validateCredentials (email password_ : string) : M bool :=
  try_catch
    (user <- findByEmail email ;;
     match user with
     | None => ret false
     | Some user =>
         match password user with
         | Some stored =>
             if truthy stored then ret (bcrypt_compare password_ stored)
             else ret false
         | None => ret false
         end
     end)
    (fun _ => ret false).

Definition emailExists (email : string) : M bool :=
  try_catch
    (user <- findByEmail email ;;
     ret (match user with Some _ => true | None => false end))
    (fun _ => ret false).

(** ** AuthController.checkEmail (features/auth/controllers.ts) *)

(** The value of [req.query.email]: absent, a string, or something that
    is not a string (a repeated or nested parameter). *)
Inductive QueryValue :=
| QAbsent
| QString (s : string)
| QOther.

Record CheckEmailData := { exists_ : bool }.

Record HttpResponse := {
  status : Z;
  body : ApiResponse CheckEmailData
}.

Definition checkEmail (q : QueryValue) : M HttpResponse :=
  try_catch
    (match q with
     | QString email =>
         if negb (truthy email) then
           ret {| status := HTTP_STATUS.BAD_REQUEST;
                  body := failure "Email parameter is required" |}
         else
           exists' <- emailExists email ;;
           ret {| status := HTTP_STATUS.OK;
                  body := {| success := true;
                             message := "Email check completed";
                             data := Some {| exists_ := exists' |};
                             error := None |} |}
     | _ =>
         ret {| status := HTTP_STATUS.BAD_REQUEST;
                body := failure "Email parameter is required" |}
     end)
    (fun error =>
       ret {| status := HTTP_STATUS.INTERNAL_SERVER_ERROR;
              body := failure_with RESPONSE_MESSAGES.SERVER_ERROR
                        (exn_message error) |}).

(** ** Google identity resolution (config/passport.ts) *)

Definition mapDbUserToExpressUser (dbUser : User) : option ExpressUser :=
  let provider :=
    match provider dbUser with
    | Some p =>
        if (p =? "local")%string then Some local
        else if (p =? "google")%string then Some google
        else None
    | None => None
    end in
  Some {| eu_id := id dbUser; eu_email := email dbUser;
          eu_name := name dbUser; eu_provider := provider |}.

(** [profile.emails?.[0]?.value] and [profile.photos?.[0]?.value]. *)
Definition first_value (l : option (list string)) : option string :=
  match l with
  | Some (v :: _) => Some v
  | _ => None
  end.

Definition MISSING_PROFILE : Exn :=
  JsError "Missing required Google profile information".

Definition OAUTH_NOT_CONFIGURED : Exn :=
  JsError "Google OAuth not properly configured. Please set GOOGLE_CLIENT_ID and GOOGLE_CLIENT_SECRET in your .env file".

(** The verify callback registered with the Google strategy; it reports
    through [done] and never throws. *)
Definition googleStrategyVerify (clientId clientSecret : option string)
  (profile : GoogleProfile.t) (now : Date) : M Done :=
  if negb (truthy_opt clientId) || negb (truthy_opt clientSecret) then
    ret {| done_error := Some OAUTH_NOT_CONFIGURED; done_user := None |}
  else
    try_catch
      (let googleId := GoogleProfile.id profile in
       let email := first_value (GoogleProfile.emails profile) in
       let name := GoogleProfile.displayName profile in
       let profilePicture := first_value (GoogleProfile.photos profile) in
       match email with
       | Some email =>
           if negb (truthy email) || negb (truthy googleId) then
             ret {| done_error := Some MISSING_PROFILE; done_user := None |}
           else
             user <- prisma_findUnique (ByGoogleId googleId) ;;
             match user with
             | Some user =>
                 user <- prisma_update (ById (id user))
                           [Fname name;
                            FprofilePicture (or_null profilePicture);
                            FemailVerified true;
                            FupdatedAt now] now ;;
                 ret {| done_error := None;
                        done_user := mapDbUserToExpressUser user |}
             | None =>
                 user <- prisma_findUnique (ByEmail email) ;;
                 match user with
                 | Some user =>
                     user <- prisma_update (ById (id user))
                               [FgoogleId (Some googleId);
                                Fprovider (Some "google");
                                FprofilePicture (or_null profilePicture);
                                FemailVerified true;
                                FupdatedAt now] now ;;
                     ret {| done_error := None;
                            done_user := mapDbUserToExpressUser user |}
                 | None =>
                     user <- prisma_create
                               {| c_name := name;
                                  c_email := email;
                                  c_password := None;
                                  c_googleId := Some googleId;
                                  c_provider := "google";
                                  c_profilePicture := or_null profilePicture;
                                  c_emailVerified := true |} now ;;
                     ret {| done_error := None;
                            done_user := mapDbUserToExpressUser user |}
                 end
             end
       | None =>
           ret {| done_error := Some MISSING_PROFILE; done_user := None |}
       end)
      (fun error => ret {| done_error := Some error; done_user := None |}).

Definition findOrCreateGoogleUser (profile : GoogleProfile.t) (now : Date)
  : M (option ExpressUser) :=
  let googleId := GoogleProfile.id profile in
  let email := first_value (GoogleProfile.emails profile) in
  let name := GoogleProfile.displayName profile in
  let profilePicture := first_value (GoogleProfile.photos profile) in
  match email with
  | Some email =>
      if negb (truthy email) || negb (truthy googleId) then
        throw MISSING_PROFILE
      else
        try_catch
          (user <- prisma_findUnique (ByGoogleId googleId) ;;
           user <- match user with
                   | Some user => ret user
                   | None =>
                       user <- prisma_findUnique (ByEmail email) ;;
                       match user with
                       | Some user =>
                           prisma_update (ById (id user))
                             [FgoogleId (Some googleId);
                              Fprovider (Some "google");
                              FprofilePicture (or_null profilePicture);
                              FemailVerified true] now
                       | None =>
                           prisma_create
                             {| c_name := name;
                                c_email := email;
                                c_password := None;
                                c_googleId := Some googleId;
                                c_provider := "google";
                                c_profilePicture := or_null profilePicture;
                                c_emailVerified := true |} now
                       end
                   end ;;
           ret (mapDbUserToExpressUser user))
          (fun error => throw error)
  | None => throw MISSING_PROFILE
  end.

End Service.

(** ** The basic routes of features/auth/routes *)

Inductive Middleware :=
| validateSignup
| validateLogin
| validateForgotPassword
| validateResetPassword
| authenticateToken
| requireAdmin.

Inductive Handler :=
| H_signup
| H_login
| H_forgotPassword
| H_resetPassword
| H_getUsers
| H_getProfile
| H_checkEmail
| H_healthCheck.

Record Route := {
  method : string;
  path : string;
  middlewares : list Middleware;
  handler : Handler
}.

Definition router : list Route :=
  [ {| method := "POST"; path := "/signup";
       middlewares := [validateSignup]; handler := H_signup |};
    {| method := "POST"; path := "/login";
       middlewares := [validateLogin]; handler := H_login |};
    {| method := "POST"; path := "/forgot-password";
       middlewares := [validateForgotPassword];
       handler := H_forgotPassword |};
    {| method := "POST"; path := "/reset-password";
       middlewares := [validateResetPassword];
       handler := H_resetPassword |};
    {| method := "GET"; path := "/users";
       middlewares := [authenticateToken; requireAdmin];
       handler := H_getUsers |};
    {| method := "GET"; path := "/profile";
       middlewares := [authenticateToken]; handler := H_getProfile |};
    {| method := "GET"; path := "/check-email";
       middlewares := []; handler := H_checkEmail |};
    {| method := "GET"; path := "/health";
       middlewares := []; handler := H_healthCheck |} ].

Definition route_of (m p : string) : option Route :=
  find (fun r => (method r =? m)%string && (path r =? p)%string) router.

(** ** The data model of the specification, read off a row *)

Record ResetChallenge := {
  code : string;
  issuedAt : Date;
  expiresAt : Date
}.

Definition resetChallenge (u : User) : option ResetChallenge :=
  match resetOTP u, otpCreatedAt u, otpExpiresAt u with
  | Some c, Some i, Some e =>
      Some {| code := c; issuedAt := i; expiresAt := e |}
  | _, _, _ => None
  end.

(** The three OTP columns are all null, or all set with a non-empty
    code. *)
Definition challenge_wfb (u : User) : bool :=
  match resetOTP u, otpCreatedAt u, otpExpiresAt u with
  | None, None, None => true
  | Some c, Some _, Some _ => truthy c
  | _, _, _ => false
  end.

Definition challenge_wf (u : User) : Prop := challenge_wfb u = true.



(** Outcomes of verifyResetChallenge as the specification names them. *)
Inductive VerifyOutcome :=
| NotFound
| NoChallenge
| Expired
| Mismatch
| Verified.

(** verifyResetChallenge in the words of the specification: no account,
    no challenge, now after expiresAt, code differs, else success. *)
Definition verifyResetChallenge_spec (account : option User)
  (submittedCode : string) (now : Date) : VerifyOutcome :=
  match account with
  | None => NotFound
  | Some a =>
      match resetChallenge a with
      | None => NoChallenge
      | Some ch =>
          if expiresAt ch <? now then Expired
          else if (code ch =? submittedCode)%string then Verified
          else Mismatch
      end
  end.

(** How [verifyOTP] reports each outcome. *)
Definition outcome_result (o : VerifyOutcome) : OTPVerificationResult.t :=
  match o with
  | NotFound =>
      {| OTPVerificationResult.valid := false;
         OTPVerificationResult.message := "User not found" |}
  | NoChallenge =>
      {| OTPVerificationResult.valid := false;
         OTPVerificationResult.message :=
           "No OTP found. Please request a new one." |}
  | Expired =>
      {| OTPVerificationResult.valid := false;
         OTPVerificationResult.message :=
           "OTP has expired. Please request a new one." |}
  | Mismatch =>
      {| OTPVerificationResult.valid := false;
         OTPVerificationResult.message :=
           "Invalid OTP code. Please check and try again." |}
  | Verified =>
      {| OTPVerificationResult.valid := true;
         OTPVerificationResult.message := "OTP verified successfully" |}
  end.

(** ** Requests of the public interface and the states they reach *)

Inductive Request :=
| Req_register (d : RegisterRequest) (now : Date)
| Req_login (email password_ : string)
| Req_forgotPassword (email : string) (randomNumber : Z)
    (dateNow newDate : Date)
| Req_resetPassword (d : ResetPasswordRequest) (tVerify tUpdate tClear : Date)
| Req_checkEmail (q : QueryValue)
| Req_googleCallback (clientId clientSecret : option string)
    (profile : GoogleProfile.t) (now : Date)
| Req_googleSuccess (profile : GoogleProfile.t) (now : Date).

Definition serve {C : Collaborators} (r : Request) (w : World) : World :=
  match r with
  | Req_register d now => snd (register d now w)
  | Req_login e p => snd (login e p w)
  | Req_forgotPassword e r t1 t2 => snd (forgotPassword e r t1 t2 w)
  | Req_resetPassword d t1 t2 t3 => snd (resetPassword d t1 t2 t3 w)
  | Req_checkEmail q => snd (checkEmail q w)
  | Req_googleCallback a b p now => snd (googleStrategyVerify a b p now w)
  | Req_googleSuccess p now => snd (findOrCreateGoogleUser p now w)
  end.

Definition set_online (b : bool) (w : World) : World :=
  {| rows := rows w; nextId := nextId w; online := b; commits := commits w |}.


(** ** Concrete collaborators and tables used to run the model *)

Definition demo : Collaborators :=
  {| bcrypt_hash := fun p => "$2a$10$" ++ p;
     bcrypt_compare := fun p h => (("$2a$10$" ++ p) =? h)%string;
     generateToken := fun i e p => "jwt:" ++ e ++ ":" ++ p;
     sendMail := fun _ => Ok "msg-1";
     updatedAt_auto := true |}.

(** The same collaborators with a mail transport that is down. *)
Definition demo_mail_down : Collaborators :=
  {| bcrypt_hash := fun p => "$2a$10$" ++ p;
     bcrypt_compare := fun p h => (("$2a$10$" ++ p) =? h)%string;
     generateToken := fun i e p => "jwt:" ++ e ++ ":" ++ p;
     sendMail := fun _ => Throw (JsError "connect ECONNREFUSED");
     updatedAt_auto := true |}.

(** Alice registered locally and has a reset code "123456" issued at 0. *)
Definition alice : User :=
  {| id := 1; name := "Alice"; email := "a@x.com";
     password := Some "$2a$10$secret1"; googleId := None;
     provider := Some "local"; profilePicture := None;
     emailVerified := false; resetOTP := Some "123456";
     otpCreatedAt := Some 0; otpExpiresAt := Some 600000;
     passwordUpdatedAt := None; createdAt := 0; updatedAt := 0 |}.

(** Gina signed up through Google and has no password. *)
Definition gina : User :=
  {| id := 2; name := "Gina"; email := "g@x.com";
     password := None; googleId := Some "g2";
     provider := Some "google"; profilePicture := None;
     emailVerified := true; resetOTP := None;
     otpCreatedAt := None; otpExpiresAt := None;
     passwordUpdatedAt := None; createdAt := 0; updatedAt := 0 |}.

Definition world0 : World :=
  {| rows := [alice; gina]; nextId := 3; online := true; commits := [] |}.

Definition profile_of (gid : string) (mail : option string) (dn : string)
  : GoogleProfile.t :=
  {| GoogleProfile.id := gid;
     GoogleProfile.emails :=
       match mail with Some m => Some [m] | None => None end;
     GoogleProfile.displayName := dn;
     GoogleProfile.photos := None |}.

(** The answer of forgotPassword on its success path. *)
Definition otp_sent : AuthResponse :=
  {| success := true; message := RESPONSE_MESSAGES.OTP_SENT;
     data := None; error := None |}.

(** The [data] object of the refresh in step 1 of the verify callback. *)
Definition refresh_data (profile : GoogleProfile.t) (now : Date)
  : list Field :=
  [Fname (GoogleProfile.displayName profile);
   FprofilePicture (or_null (first_value (GoogleProfile.photos profile)));
   FemailVerified true;
   FupdatedAt now].

(** A table reached through the interface: Alice registers, then asks for
    a reset. *)
Definition world_alice_registered : World :=
  serve (C:=demo)
    (Req_register {| rr_name := "Alice"; rr_email := "a@x.com";
                     rr_password := "secret1" |} 0)
    {| rows := []; nextId := 1; online := true; commits := [] |}.


(** ** The rest of the code: controllers, helpers, middlewares *)

(** The status codes of HTTP_STATUS not used by checkEmail. *)
Module Status.
Definition CREATED : Z := 201.
Definition UNAUTHORIZED : Z := 401.
Definition FORBIDDEN : Z := 403.
End Status.

Record AuthHttpResponse := {
  auth_status : Z;
  auth_body : AuthResponse
}.

(** AuthController (features/auth/controllers.ts): the handlers that wrap
    AuthService. *)
Module AuthController.

Definition server_error (error : Exn) : AuthHttpResponse :=
  {| auth_status := HTTP_STATUS.INTERNAL_SERVER_ERROR;
     auth_body := failure_with RESPONSE_MESSAGES.SERVER_ERROR
                    (exn_message error) |}.

Definition signup {C : Collaborators} (userData : RegisterRequest)
  (now : Date) : M AuthHttpResponse :=
  try_catch
    (result <- register userData now ;;
     ret {| auth_status := if success result then Status.CREATED
                           else HTTP_STATUS.BAD_REQUEST;
            auth_body := result |})
    (fun error => ret (server_error error)).

Definition login {C : Collaborators} (email password_ : string)
  : M AuthHttpResponse :=
  try_catch
    (result <- login email password_ ;;
     ret {| auth_status := if success result then HTTP_STATUS.OK
                           else Status.UNAUTHORIZED;
            auth_body := result |})
    (fun error => ret (server_error error)).

Definition forgotPassword {C : Collaborators} (email : string)
  (randomNumber : Z) (dateNow newDate : Date) : M AuthHttpResponse :=
  try_catch
    (result <- forgotPassword email randomNumber dateNow newDate ;;
     ret {| auth_status := if success result then HTTP_STATUS.OK
                           else HTTP_STATUS.INTERNAL_SERVER_ERROR;
            auth_body := result |})
    (fun error => ret (server_error error)).

Definition resetPassword {C : Collaborators} (resetData : ResetPasswordRequest)
  (tVerify tUpdate tClear : Date) : M AuthHttpResponse :=
  try_catch
    (result <- resetPassword resetData tVerify tUpdate tClear ;;
     ret {| auth_status := if success result then HTTP_STATUS.OK
                           else HTTP_STATUS.BAD_REQUEST;
            auth_body := result |})
    (fun error => ret (server_error error)).

End AuthController.

(** UserRepository.findById and existsByEmail. *)
Definition findById (i : Z) : M (option User) :=
  try_catch (prisma_findUnique (ById i)) (fun error => throw error).

Definition existsByEmail (email : string) : M bool :=
  try_catch
    (user <- prisma_findUnique (ByEmail email) ;;
     ret (match user with Some _ => true | None => false end))
    (fun _ => ret false).

(** Passport session callbacks (config/passport.ts). *)
Definition serializeUser (user : ExpressUser) : Z := eu_id user.

Definition deserializeUser (i : Z) : M Done :=
  try_catch
    (user <- prisma_findUnique (ById i) ;;
     ret {| done_error := None;
            done_user := match user with
                         | Some user => mapDbUserToExpressUser user
                         | None => None
                         end |})
    (fun error => ret {| done_error := Some error; done_user := None |}).

(** helpers/authHelpers.ts *)
Module authHelpers.

(** [digits[Math.floor(Math.random() * digits.length)]]: the index drawn in
    each round is an input; an index outside the string reads [undefined],
    which [+=] appends as text. *)
Definition digit_at (k : Z) : string :=
  if (0 <=? k) && (k <? 10) then String (digitChar k) "" else "undefined".

Fixpoint generateOTP_loop (rounds : nat) (draws : nat -> Z) (i : nat)
  (otp : string) : string :=
  match rounds with
  | O => otp
  | S n => generateOTP_loop n draws (S i) (otp ++ digit_at (draws i))
  end.

Definition generateOTP (length : Z) (draws : nat -> Z) : string :=
  generateOTP_loop (Z.to_nat length) draws 0%nat "".

Definition isOTPExpired (expiresAt : option Date) (now : Date) : bool :=
  match expiresAt with
  | None => true
  | Some e => e <? now
  end.

Definition code_in (lo hi : nat) (c : ascii) : bool :=
  (lo <=? nat_of_ascii c)%nat && (nat_of_ascii c <=? hi)%nat.

Definition isUpper (c : ascii) : bool := code_in 65 90 c.
Definition isLower (c : ascii) : bool := code_in 97 122 c.
Definition isDecimal (c : ascii) : bool := code_in 48 57 c.

(** The character class of the last test: the punctuation listed below
    and the double quote. *)
Definition special_chars : list ascii :=
  list_ascii_of_string "!@#$%^&*(),.?:{}|<>" ++ [ascii_of_nat 34].

Definition isSpecial (c : ascii) : bool :=
  existsb (fun d => Ascii.eqb c d) special_chars.

Fixpoint test (cls : ascii -> bool) (s : string) : bool :=
  match s with
  | EmptyString => false
  | String c s' => cls c || test cls s'
  end.

Record PasswordStrength := {
  isValid : bool;
  score : Z;
  feedback : list string
}.

Definition criteria (password_ : string) : list (bool * string) :=
  [ ((8 <=? String.length password_)%nat,
     "Password should be at least 8 characters long");
    (test isUpper password_, "Password should contain uppercase letters");
    (test isLower password_, "Password should contain lowercase letters");
    (test isDecimal password_, "Password should contain numbers");
    (test isSpecial password_,
     "Password should contain special characters") ].

Definition validatePasswordStrength (password_ : string) : PasswordStrength :=
  let step (acc : Z * list string) (c : bool * string) :=
    if fst c then (fst acc + 1, snd acc)
    else (fst acc, (snd acc ++ [snd c])%list) in
  let r := fold_left step (criteria password_) (0, []) in
  {| isValid := 3 <=? fst r; score := fst r; feedback := snd r |}.

End authHelpers.

(** middlewares/adminMiddleware.ts: the module-level list [ADMIN_EMAILS]
    is the state. *)
Module adminMiddleware.

Definition includes (l : list string) (e : string) : bool :=
  existsb (fun x => (x =? e)%string) l.

Definition isAdmin (ADMIN_EMAILS : list string) (userEmail : string) : bool :=
  includes ADMIN_EMAILS userEmail.

Definition addAdminEmail (ADMIN_EMAILS : list string) (email : string)
  : list string :=
  if negb (includes ADMIN_EMAILS email) then (ADMIN_EMAILS ++ [email])%list
  else ADMIN_EMAILS.

(** [indexOf] then [splice(index, 1)]: the first occurrence goes. *)
Fixpoint removeAdminEmail (ADMIN_EMAILS : list string) (email : string)
  : list string :=
  match ADMIN_EMAILS with
  | [] => []
  | x :: xs => if (x =? email)%string then xs
               else x :: removeAdminEmail xs email
  end.

Inductive Outcome :=
| Next
| Respond (status : Z) (message : string).

Definition requireAdmin (ADMIN_EMAILS : list string)
  (user : option SafeUser.t) : Outcome :=
  match user with
  | None => Respond Status.UNAUTHORIZED "Authentication required"
  | Some user =>
      if negb (includes ADMIN_EMAILS (SafeUser.email user)) then
        Respond Status.FORBIDDEN
          "Admin access required. This endpoint is restricted to administrators only."
      else Next
  end.

End adminMiddleware.

(** middlewares/authMiddleware: token extraction and verification. *)
Module authMiddleware.

(** [s.split(' ')] *)
Fixpoint split (sep : ascii) (s : string) : list string :=
  match s with
  | EmptyString => [""]
  | String c s' =>
      if Ascii.eqb c sep then "" :: split sep s'
      else match split sep s' with
           | h :: t => String c h :: t
           | [] => [String c ""]
           end
  end.

(** [authHeader && authHeader.split(' ')[1]], as the token that the
    following truthiness test lets through. *)
Definition bearer (authHeader : option string) : option string :=
  match authHeader with
  | Some h =>
      if truthy h then
        match nth_error (split " " h) 1 with
        | Some t => if truthy t then Some t else None
        | None => None
        end
      else None
  | None => None
  end.

Record JWTPayload := {
  userId : Z;
  jwt_email : string;
  jwt_provider : option string
}.

(** How [jwt.verify] ends. *)
Inductive JwtResult :=
| Decoded (p : JWTPayload)
| TokenExpiredError
| JsonWebTokenError
| OtherError.

(** The user object of the middlewares; [createdAt] and [updatedAt] are
    two reads of the clock. *)
Definition user_of (decoded : JWTPayload) (tCreated tUpdated : Date)
  : SafeUser.t :=
  {| SafeUser.id := userId decoded;
     SafeUser.name := "";
     SafeUser.email := jwt_email decoded;
     SafeUser.provider := or_default (jwt_provider decoded) "local";
     SafeUser.profilePicture := "";
     SafeUser.emailVerified := false;
     SafeUser.createdAt := tCreated;
     SafeUser.updatedAt := tUpdated;
     SafeUser.passwordUpdatedAt := None |}.

(** What a middleware leaves behind: the user it attached and whether it
    called [next] or answered itself. *)
Inductive Outcome :=
| Next (user : option SafeUser.t)
| Denied (status : Z) (message : string) (error : string).

Section Verify.

Variable jwt_verify : string -> JwtResult.

Definition authenticateToken (authorization : option string)
  (tCreated tUpdated : Date) : Outcome :=
  match bearer authorization with
  | None => Denied Status.UNAUTHORIZED "Access denied" "No token provided"
  | Some token =>
      match jwt_verify token with
      | Decoded decoded => Next (Some (user_of decoded tCreated tUpdated))
      | TokenExpiredError =>
          Denied Status.UNAUTHORIZED "Access denied" "Token has expired"
      | JsonWebTokenError =>
          Denied Status.UNAUTHORIZED "Access denied" "Invalid token format"
      | OtherError =>
          Denied Status.UNAUTHORIZED "Access denied" "Invalid or expired token"
      end
  end.

Definition optionalAuth (authorization : option string)
  (tCreated tUpdated : Date) : Outcome :=
  match bearer authorization with
  | None => Next None
  | Some token =>
      match jwt_verify token with
      | Decoded decoded => Next (Some (user_of decoded tCreated tUpdated))
      | _ => Next None
      end
  end.

End Verify.

Definition requireAuth (user : option SafeUser.t) : Outcome :=
  match user with
  | None => Denied Status.UNAUTHORIZED "Access denied" "Authentication required"
  | Some u => Next (Some u)
  end.

End authMiddleware.

(** helpers/validationHelpers: sanitizeString and isValidLength. *)
Module validationHelpers.

(** White space of [String.prototype.trim] among the code units below 256. *)
Definition isWhite (c : ascii) : bool :=
  let n := nat_of_ascii c in
  ((9 <=? n)%nat && (n <=? 13)%nat) || (n =? 32)%nat || (n =? 160)%nat.

Fixpoint trimStart (s : string) : string :=
  match s with
  | EmptyString => ""
  | String c s' => if isWhite c then trimStart s' else s
  end.

Fixpoint trimEnd (s : string) : string :=
  match s with
  | EmptyString => ""
  | String c s' =>
      match trimEnd s' with
      | EmptyString => if isWhite c then "" else String c ""
      | t => String c t
      end
  end.

Definition trim (s : string) : string := trimEnd (trimStart s).

(** [s.replace(/[...]/g, '')] for a character class. *)
Fixpoint remove_class (cls : ascii -> bool) (s : string) : string :=
  match s with
  | EmptyString => ""
  | String c s' =>
      if cls c then remove_class cls s' else String c (remove_class cls s')
  end.

Definition isAngle (c : ascii) : bool :=
  Ascii.eqb c "<" || Ascii.eqb c ">".

Definition isQuote (c : ascii) : bool :=
  Ascii.eqb c "'" || Ascii.eqb c (ascii_of_nat 34).

Definition sanitizeString (input : string) : string :=
  String.substring 0 255
    (remove_class isQuote (remove_class isAngle (trim input))).

Definition isValidLength (str : string) (min max : Z) : bool :=
  (min <=? Z.of_nat (String.length str))
  && (Z.of_nat (String.length str) <=? max).

End validationHelpers.

(** The entries that both resolvers write when they link an account. *)
Definition link_data (profile : GoogleProfile.t) : list Field :=
  [FgoogleId (Some (GoogleProfile.id profile));
   Fprovider (Some "google");
   FprofilePicture (or_null (first_value (GoogleProfile.photos profile)));
   FemailVerified true].

(** Every character of a string is in a class. *)
Fixpoint every (cls : ascii -> bool) (s : string) : bool :=
  match s with
  | EmptyString => true
  | String c s' => cls c && every cls s'
  end.

Definition notSpace (c : ascii) : bool := negb (Ascii.eqb c " ").

(** GET /users: authenticateToken, then requireAdmin, then the handler. *)
Definition users_route_admits (jwt_verify : string -> authMiddleware.JwtResult)
  (ADMIN_EMAILS : list string) (authorization : option string)
  (tCreated tUpdated : Date) : bool :=
  match authMiddleware.authenticateToken jwt_verify authorization tCreated
          tUpdated with
  | authMiddleware.Next user =>
      match adminMiddleware.requireAdmin ADMIN_EMAILS user with
      | adminMiddleware.Next => true
      | adminMiddleware.Respond _ _ => false
      end
  | authMiddleware.Denied _ _ _ => false
  end.



(** * Properties *)

(** ** Lists and selectors *)

Lemma opt_string_eqb_refl (a : option string) : opt_string_eqb a a = true.
Proof. destruct a as [s|]; simpl; [apply String.eqb_refl | reflexivity]. Qed.

Lemma opt_string_eqb_eq (a b : option string) :
  opt_string_eqb a b = true <-> a = b.
Proof.
  destruct a as [x|], b as [y|]; simpl; split; intros H;
    try discriminate; try reflexivity.
  - apply String.eqb_eq in H. now subst.
  - injection H as ->. apply String.eqb_refl.
Qed.

Lemma truthy_true (s : string) : truthy s = true <-> s <> "".
Proof.
  unfold truthy. rewrite negb_true_iff. split.
  - intros H ->. discriminate.
  - intros H. apply String.eqb_neq. exact H.
Qed.

Lemma find_In {A} (sel : A -> bool) (l : list A) (a : A) :
  find sel l = Some a -> In a l /\ sel a = true.
Proof. apply find_some. Qed.

Lemma find_update_first (sel : User -> bool) (u u' : User) (l : list User) :
  find sel l = Some u -> sel u' = true ->
  find sel (update_first sel (fun _ => u') l) = Some u'.
Proof.
  intros Hf Hs. induction l as [|r rs IH]; simpl in *; [discriminate|].
  destruct (sel r) eqn:E; simpl.
  - now rewrite Hs.
  - rewrite E. now apply IH.
Qed.

Lemma existsb_remove_first (p sel : User -> bool) (l : list User) :
  existsb p l = false -> existsb p (remove_first sel l) = false.
Proof.
  induction l as [|r rs IH]; simpl; [reflexivity|].
  intros H. apply orb_false_iff in H as [Hr Hrs].
  destruct (sel r); simpl; [exact Hrs|]. rewrite Hr. now apply IH.
Qed.

Lemma find_none_existsb (p : User -> bool) (l : list User) :
  find p l = None -> existsb p l = false.
Proof.
  induction l as [|r rs IH]; simpl; [reflexivity|].
  destruct (p r); [discriminate|]. exact IH.
Qed.

Lemma nodup_id_eq (l : list User) (a b : User) :
  NoDup (map id l) -> In a l -> In b l -> id a = id b -> a = b.
Proof.
  induction l as [|r rs IH]; simpl; [contradiction|].
  intros Hnd Ha Hb Hid. inversion Hnd as [|x xs Hnotin Hnd']; subst.
  destruct Ha as [->|Ha], Hb as [->|Hb]; try reflexivity.
  - exfalso. apply Hnotin. rewrite Hid. now apply in_map.
  - exfalso. apply Hnotin. rewrite <- Hid. now apply in_map.
  - now apply IH.
Qed.

(** Replacing, by primary key, the row that a unique column selects keeps
    that column's lookup on the replaced row. *)
Lemma find_update_by_id (sel : User -> bool) (u u' : User) (l : list User) :
  NoDup (map id l) -> find sel l = Some u -> sel u' = true ->
  find sel (update_first (matches (ById (id u))) (fun _ => u') l) = Some u'.
Proof.
  intros Hnd Hf Hs. induction l as [|r rs IH]; simpl in *; [discriminate|].
  inversion Hnd as [|x xs Hnotin Hnd']; subst.
  destruct (sel r) eqn:E.
  - injection Hf as ->. rewrite Z.eqb_refl. simpl. now rewrite Hs.
  - destruct (id r =? id u) eqn:Eid.
    + exfalso. apply Z.eqb_eq in Eid. apply Hnotin. rewrite Eid.
      apply in_map. now apply find_In in Hf.
    + simpl. rewrite E. now apply IH.
Qed.

Lemma find_by_own_id (sel : User -> bool) (u : User) (l : list User) :
  NoDup (map id l) -> find sel l = Some u ->
  find (matches (ById (id u))) l = Some u.
Proof.
  intros Hnd Hf. apply find_In in Hf as [Hin _].
  destruct (find (matches (ById (id u))) l) as [r|] eqn:E.
  - apply find_In in E as [Hr Hm]. simpl in Hm. apply Z.eqb_eq in Hm.
    f_equal. now apply (nodup_id_eq l).
  - exfalso. apply (find_none _ _ E) in Hin. simpl in Hin.
    now rewrite Z.eqb_refl in Hin.
Qed.

(** ** verifyOTP *)

Lemma verifyOTP_world (email otp : string) (now : Date) (w : World) :
  snd (verifyOTP email otp now w) = w.
Proof.
  unfold verifyOTP, try_catch, bind, prisma_findUnique, ret, throw.
  destruct (online w); [|reflexivity].
  destruct (find (matches (ByEmail email)) (rows w)) as [u|]; [|reflexivity].
  destruct (truthy_opt (resetOTP u)); simpl; [|reflexivity].
  destruct (otpExpiresAt u) as [e|]; simpl; [|reflexivity].
  destruct (e <? now); simpl; [reflexivity|].
  destruct (opt_string_eqb (resetOTP u) (Some otp)); reflexivity.
Qed.

(** On tables that keep the data model (a challenge is whole, its code
    not empty) verifyOTP computes the function worded after the
    specification. *)
Lemma verifyOTP_refines (email otp : string) (now : Date) (w : World) :
  online w = true ->
  Forall challenge_wf (rows w) ->
  fst (verifyOTP email otp now w)
  = Ok (outcome_result
          (verifyResetChallenge_spec
             (find (matches (ByEmail email)) (rows w)) otp now)).
Proof.
  intros Hon Hwf.
  unfold verifyOTP, try_catch, bind, prisma_findUnique, ret, throw.
  rewrite Hon.
  destruct (find (matches (ByEmail email)) (rows w)) as [u|] eqn:Hf;
    [|reflexivity].
  apply find_In in Hf as [Hin _].
  rewrite Forall_forall in Hwf. specialize (Hwf u Hin).
  unfold challenge_wf, challenge_wfb in Hwf.
  unfold verifyResetChallenge_spec, resetChallenge.
  destruct (resetOTP u) as [c|], (otpCreatedAt u) as [i|],
    (otpExpiresAt u) as [e|]; try discriminate; simpl; [|reflexivity].
  rewrite Hwf. simpl.
  destruct (e <? now); simpl; [reflexivity|].
  destruct (c =? otp)%string; reflexivity.
Qed.

Lemma outcome_result_inj (o1 o2 : VerifyOutcome) :
  outcome_result o1 = outcome_result o2 -> o1 = o2.
Proof. destruct o1, o2; simpl; intros H; try reflexivity; discriminate H. Qed.

Lemma verifyOTP_run (email otp : string) (now : Date) (w : World) :
  online w = true ->
  fst (verifyOTP email otp now w)
  = Ok match find (matches (ByEmail email)) (rows w) with
       | None => outcome_result NotFound
       | Some user =>
           if negb (truthy_opt (resetOTP user)) then
             outcome_result NoChallenge
           else if match otpExpiresAt user with
                   | None => true
                   | Some expires => expires <? now
                   end then outcome_result Expired
           else if negb (opt_string_eqb (resetOTP user) (Some otp)) then
             outcome_result Mismatch
           else outcome_result Verified
       end.
Proof.
  intros Hon. unfold verifyOTP, try_catch, bind, prisma_findUnique.
  rewrite Hon.
  destruct (find (matches (ByEmail email)) (rows w)) as [u|]; [|reflexivity].
  destruct (truthy_opt (resetOTP u)); simpl; [|reflexivity].
  destruct (otpExpiresAt u) as [e|]; simpl; [|reflexivity].
  destruct (e <? now); simpl; [reflexivity|].
  destruct (opt_string_eqb (resetOTP u) (Some otp)); reflexivity.
Qed.

(** C2. For every store state, e-mail, submitted code and instant,
    verifyOTP leaves the store as it is (no write, no commit) and, the store
    being reachable, answers in this precedence: NotFound when no row has
    the e-mail; else NoChallenge when the row stores no code (null, or the
    empty string, which JavaScript reads as absent), whatever else the row
    holds; else Expired when the instant is strictly after the stored
    expiry, whatever code is submitted, the right one included; else
    Mismatch when the submitted code is not the stored string; else
    success.  A stored code without a stored expiry counts as expired.  The
    five answers are pairwise different.  With the store unreachable the
    call throws. *)
Theorem verifyOTP_precedence (email otp : string) (now : Date) (w : World) :
  snd (verifyOTP email otp now w) = w
  /\ (online w = false -> fst (verifyOTP email otp now w) = Throw P1001)
  /\ (forall o1 o2, outcome_result o1 = outcome_result o2 -> o1 = o2)
  /\ (online w = true ->
      (find (matches (ByEmail email)) (rows w) = None ->
       fst (verifyOTP email otp now w) = Ok (outcome_result NotFound))
      /\ forall a,
           find (matches (ByEmail email)) (rows w) = Some a ->
           (resetOTP a = None \/ resetOTP a = Some "" ->
            fst (verifyOTP email otp now w)
            = Ok (outcome_result NoChallenge))
           /\ forall c,
                resetOTP a = Some c -> c <> "" ->
                (otpExpiresAt a = None ->
                 fst (verifyOTP email otp now w)
                 = Ok (outcome_result Expired))
                /\ forall e,
                     otpExpiresAt a = Some e ->
                     (e < now ->
                      fst (verifyOTP email otp now w)
                      = Ok (outcome_result Expired))
                     /\ (now <= e -> otp <> c ->
                         fst (verifyOTP email otp now w)
                         = Ok (outcome_result Mismatch))
                     /\ (now <= e -> otp = c ->
                         fst (verifyOTP email otp now w)
                         = Ok (outcome_result Verified))).
Proof.
  split; [apply verifyOTP_world|]. split; [|split].
  - intros Hoff. unfold verifyOTP, try_catch, bind, prisma_findUnique.
    now rewrite Hoff.
  - apply outcome_result_inj.
  - intros Hon. rewrite (verifyOTP_run email otp now w Hon). split.
    + intros ->. reflexivity.
    + intros a ->. split.
      * intros [->| ->]; reflexivity.
      * intros c -> Hc. apply truthy_true in Hc. cbn [truthy_opt]. rewrite Hc.
        cbn [negb]. split.
        -- intros ->. reflexivity.
        -- intros e ->. repeat split.
           ++ intros Hlt. apply Z.ltb_lt in Hlt. now rewrite Hlt.
           ++ intros Hle Hne. apply Z.ltb_ge in Hle. rewrite Hle.
              cbn [opt_string_eqb].
              replace (c =? otp)%string with false; [reflexivity|].
              symmetry. apply String.eqb_neq. congruence.
           ++ intros Hle ->. apply Z.ltb_ge in Hle. rewrite Hle.
              cbn [opt_string_eqb]. now rewrite String.eqb_refl.
Qed.

Lemma verifyOTP_precedence_witness :
  verifyOTP "a@x.com" "123456" (11 * 60 * 1000) world0
  = (Ok (outcome_result Expired), world0)
  /\ fst (verifyOTP "a@x.com" "654321" 1000 world0)
     = Ok (outcome_result Mismatch)
  /\ fst (verifyOTP "g@x.com" "123456" 1000 world0)
     = Ok (outcome_result NoChallenge)
  /\ fst (verifyOTP "nobody@x.com" "123456" 1000 world0)
     = Ok (outcome_result NotFound).
Proof.
  split; [|split; [|split]].
  - destruct (verifyOTP_precedence "a@x.com" "123456" (11 * 60 * 1000) world0)
      as [Hw [_ [_ H]]].
    destruct (H eq_refl) as [_ Ha].
    destruct (Ha alice eq_refl) as [_ Hc].
    destruct (Hc "123456" eq_refl ltac:(discriminate)) as [_ He].
    destruct (He 600000 eq_refl) as [Hexp _].
    rewrite (surjective_pairing (verifyOTP _ _ _ _)), Hw, Hexp;
      [reflexivity | simpl; lia].
  - destruct (verifyOTP_precedence "a@x.com" "654321" 1000 world0)
      as [_ [_ [_ H]]].
    destruct (H eq_refl) as [_ Ha].
    destruct (Ha alice eq_refl) as [_ Hc].
    destruct (Hc "123456" eq_refl ltac:(discriminate)) as [_ He].
    destruct (He 600000 eq_refl) as [_ [Hmis _]].
    apply Hmis; [lia | discriminate].
  - destruct (verifyOTP_precedence "g@x.com" "123456" 1000 world0)
      as [_ [_ [_ H]]].
    destruct (H eq_refl) as [_ Ha].
    destruct (Ha gina eq_refl) as [Hno _].
    apply Hno. left. reflexivity.
  - destruct (verifyOTP_precedence "nobody@x.com" "123456" 1000 world0)
      as [_ [_ [_ H]]].
    destruct (H eq_refl) as [Hnf _].
    apply Hnf. reflexivity.
Defined.

(** ** Rows written by an update *)

Lemma id_set_field (f : Field) (u : User) : id (set_field f u) = id u.
Proof. destruct f; reflexivity. Qed.

Lemma email_set_field (f : Field) (u : User) : email (set_field f u) = email u.
Proof. destruct f; reflexivity. Qed.

Lemma id_apply_data (data : list Field) (u : User) :
  id (apply_data data u) = id u.
Proof.
  unfold apply_data. revert u.
  induction data as [|f fs IH]; intros u; simpl; [reflexivity|].
  rewrite IH. apply id_set_field.
Qed.

Lemma email_apply_data (data : list Field) (u : User) :
  email (apply_data data u) = email u.
Proof.
  unfold apply_data. revert u.
  induction data as [|f fs IH]; intros u; simpl; [reflexivity|].
  rewrite IH. apply email_set_field.
Qed.

Lemma length_update_first (sel : User -> bool) (g : User -> User)
  (l : list User) :
  List.length (update_first sel g l) = List.length l.
Proof.
  induction l as [|r rs IH]; simpl; [reflexivity|].
  destruct (sel r); simpl; [reflexivity | now rewrite IH].
Qed.

Lemma update_first_const (sel : User -> bool) (g : User -> User)
  (u : User) (l : list User) :
  find sel l = Some u ->
  update_first sel (fun _ => g u) l = update_first sel g l.
Proof.
  induction l as [|r rs IH]; simpl; [reflexivity|].
  destruct (sel r).
  - intros H. injection H as ->. reflexivity.
  - intros H. f_equal. now apply IH.
Qed.



Lemma Forall_remove_first (P : User -> Prop) (sel : User -> bool)
  (l : list User) :
  Forall P l -> Forall P (remove_first sel l).
Proof.
  induction 1 as [|r rs Hr Hrs IH]; simpl; [constructor|].
  destruct (sel r); [assumption | now constructor].
Qed.

Lemma NoDup_map_remove_first (sel : User -> bool) (l : list User) :
  NoDup (map id l) -> NoDup (map id (remove_first sel l)).
Proof.
  induction l as [|r rs IH]; simpl; [trivial|].
  intros H. inversion H as [|x xs Hnotin Hnd]; subst.
  destruct (sel r); [assumption|]. simpl. constructor; [|now apply IH].
  intros Hin. apply Hnotin. clear -Hin.
  induction rs as [|q qs IHq]; simpl in *; [contradiction|].
  destruct (sel q); simpl in *; intuition.
Qed.

(** ** Invariant of the table *)








Section Invariant.

Context {C : Collaborators}.




End Invariant.

Section Reachable.

Context {C : Collaborators}.
















End Reachable.

(** ** Running an update *)

Section Updates.

Context {C : Collaborators}.

Lemma id_written (data : list Field) (now : Date) (u : User) :
  id (written data now u) = id u.
Proof.
  unfold written. destruct (updatedAt_auto && _); now rewrite id_apply_data.
Qed.

Lemma email_written (data : list Field) (now : Date) (u : User) :
  email (written data now u) = email u.
Proof.
  unfold written. destruct (updatedAt_auto && _); now rewrite email_apply_data.
Qed.

Lemma prisma_update_ok (wh : Where) (data : list Field) (now : Date)
  (w : World) (u : User) :
  online w = true ->
  find (matches wh) (rows w) = Some u ->
  googleId_taken (googleId (written data now u))
    (remove_first (matches wh) (rows w))
  && negb (opt_string_eqb (googleId (written data now u)) (googleId u))
  = false ->
  prisma_update wh data now w
  = (Ok (written data now u),
     commit (update_first (matches wh) (fun _ => written data now u) (rows w))
       w).
Proof.
  intros Hon Hf Hg. unfold prisma_update. rewrite Hon, Hf. cbv zeta.
  now rewrite Hg.
Qed.

(** An update that leaves [googleId] alone cannot hit the unique index. *)
Lemma prisma_update_same_key (wh : Where) (data : list Field) (now : Date)
  (w : World) (u : User) :
  online w = true ->
  find (matches wh) (rows w) = Some u ->
  googleId (written data now u) = googleId u ->
  prisma_update wh data now w
  = (Ok (written data now u),
     commit (update_first (matches wh) (fun _ => written data now u) (rows w))
       w).
Proof.
  intros Hon Hf Hg. apply prisma_update_ok; try assumption.
  rewrite Hg, opt_string_eqb_refl. apply andb_false_r.
Qed.


Lemma prisma_update_offline (wh : Where) (data : list Field) (now : Date)
  (w : World) :
  online w = false -> prisma_update wh data now w = (Throw P1001, w).
Proof. intros Hon. unfold prisma_update. now rewrite Hon. Qed.

Lemma storeOTP_run (email otp : string) (dateNow newDate : Date) (w : World)
  (u : User) :
  online w = true ->
  find (matches (ByEmail email)) (rows w) = Some u ->
  let data := [FresetOTP (Some otp); FotpCreatedAt (Some newDate);
               FotpExpiresAt (Some (dateNow + OTP_WINDOW))] in
  storeOTP email otp dateNow newDate w
  = (Ok true,
     commit (update_first (matches (ByEmail email))
               (fun _ => written data newDate u) (rows w)) w).
Proof.
  intros Hon Hf data. unfold storeOTP, try_catch, bind. cbv zeta.
  rewrite (prisma_update_same_key _ _ _ _ u Hon Hf).
  - reflexivity.
  - unfold written. now destruct (updatedAt_auto && _).
Qed.


End Updates.



(** ** resetPassword *)

Section ResetPassword.

Context {C : Collaborators}.

Lemma verifyOTP_valid (email otp : string) (now exp : Date) (w : World)
  (u : User) :
  online w = true ->
  find (matches (ByEmail email)) (rows w) = Some u ->
  resetOTP u = Some otp -> otp <> "" ->
  otpExpiresAt u = Some exp -> now <= exp ->
  verifyOTP email otp now w = (Ok (outcome_result Verified), w).
Proof.
  intros Hon Hf Hc Hne He Hle.
  unfold verifyOTP, try_catch, bind, prisma_findUnique, ret.
  rewrite Hon, Hf, Hc, He. simpl.
  apply truthy_true in Hne. rewrite Hne. simpl.
  apply Z.ltb_ge in Hle. rewrite Hle. now rewrite String.eqb_refl.
Qed.

(** C1, as the code has it. With a valid, unexpired code resetPassword
    succeeds and writes twice: first the new hash and passwordUpdatedAt
    (the reset challenge still stored), then the cleared challenge.  The
    final table has the credential replaced, passwordUpdatedAt set to the
    instant of the password update and no challenge; the table between the
    two writes is journalled, hence observable. *)
Theorem resetPassword_two_writes (d : ResetPasswordRequest)
  (tVerify tUpdate tClear exp : Date) (w : World) (u : User) :
  online w = true ->
  find (matches (ByEmail (rp_email d))) (rows w) = Some u ->
  resetOTP u = Some (rp_otp d) -> rp_otp d <> "" ->
  otpExpiresAt u = Some exp -> tVerify <= exp ->
  exists (u1 u2 : User) (t1 : list User) (w' : World),
    resetPassword d tVerify tUpdate tClear w
    = (Ok (authSuccess RESPONSE_MESSAGES.PASSWORD_RESET_SUCCESS u1
             (or_default (provider u1) "local")), w')
    /\ commits w' = (commits w ++ [t1; rows w'])%list
    /\ find (matches (ByEmail (rp_email d))) t1 = Some u1
    /\ password u1 = Some (bcrypt_hash (rp_newPassword d))
    /\ passwordUpdatedAt u1 = Some tUpdate
    /\ resetOTP u1 = Some (rp_otp d)
    /\ otpExpiresAt u1 = Some exp
    /\ find (matches (ByEmail (rp_email d))) (rows w') = Some u2
    /\ password u2 = Some (bcrypt_hash (rp_newPassword d))
    /\ passwordUpdatedAt u2 = Some tUpdate
    /\ resetOTP u2 = None /\ otpCreatedAt u2 = None
    /\ otpExpiresAt u2 = None.
Proof.
  intros Hon Hf Hc Hne He Hle.
  set (e := rp_email d) in *.
  set (data1 := [Fpassword (Some (bcrypt_hash (rp_newPassword d)));
                 FpasswordUpdatedAt (Some tUpdate)]).
  set (data2 := [FresetOTP None; FotpCreatedAt None; FotpExpiresAt None]).
  set (u1 := written data1 tUpdate u).
  set (t1 := update_first (matches (ByEmail e)) (fun _ => u1) (rows w)).
  set (u2 := written data2 tClear u1).
  set (t2 := update_first (matches (ByEmail e)) (fun _ => u2) t1).
  assert (Hm : matches (ByEmail e) u = true) by now apply find_In in Hf.
  assert (Hf1 : find (matches (ByEmail e)) t1 = Some u1).
  { apply (find_update_first _ u); [exact Hf|]. simpl in *.
    unfold u1. now rewrite email_written. }
  assert (Hf2 : find (matches (ByEmail e)) t2 = Some u2).
  { apply (find_update_first _ u1); [exact Hf1|]. simpl in *.
    unfold u2, u1. now rewrite !email_written. }
  exists u1, u2, t1, (commit t2 (commit t1 w)).
  split; [|split].
  - unfold resetPassword, try_catch, bind. fold e.
    rewrite (verifyOTP_valid e (rp_otp d) tVerify exp w u) by assumption.
    cbn [outcome_result OTPVerificationResult.valid negb]. cbv zeta.
    unfold updatePassword, clearOTP, try_catch, bind.
    rewrite (prisma_update_same_key (ByEmail e) data1 tUpdate w u Hon Hf).
    2:{ unfold written. now destruct (updatedAt_auto && _). }
    fold u1 t1. unfold ret at 1.
    rewrite (prisma_update_same_key (ByEmail e) data2 tClear
               (commit t1 w) u1 Hon Hf1).
    2:{ unfold written. now destruct (updatedAt_auto && _). }
    reflexivity.
  - cbn [commits commit rows]. now rewrite <- app_assoc.
  - cbn [rows commit].
    repeat split; try assumption;
      unfold u2, u1, written, data2, data1;
      destruct (updatedAt_auto && _); simpl;
      try destruct (updatedAt_auto && _); simpl; try reflexivity;
      assumption.
Qed.

End ResetPassword.

Lemma resetPassword_two_writes_witness :
  exists (u1 u2 : User) (t1 : list User) (w' : World),
    resetPassword (C:=demo)
      {| rp_email := "a@x.com"; rp_otp := "123456";
         rp_newPassword := "secret2" |} 1000 1100 1200 world0
    = (Ok (authSuccess (C:=demo) RESPONSE_MESSAGES.PASSWORD_RESET_SUCCESS u1
             (or_default (provider u1) "local")), w')
    /\ commits w' = (commits world0 ++ [t1; rows w'])%list
    /\ find (matches (ByEmail "a@x.com")) t1 = Some u1
    /\ password u1 = Some "$2a$10$secret2"
    /\ passwordUpdatedAt u1 = Some 1100
    /\ resetOTP u1 = Some "123456"
    /\ otpExpiresAt u1 = Some 600000
    /\ find (matches (ByEmail "a@x.com")) (rows w') = Some u2
    /\ password u2 = Some "$2a$10$secret2"
    /\ passwordUpdatedAt u2 = Some 1100
    /\ resetOTP u2 = None /\ otpCreatedAt u2 = None
    /\ otpExpiresAt u2 = None.
Proof.
  apply (resetPassword_two_writes (C:=demo)
           {| rp_email := "a@x.com"; rp_otp := "123456";
              rp_newPassword := "secret2" |} 1000 1100 1200 600000
           world0 alice).
  - reflexivity.
  - reflexivity.
  - reflexivity.
  - discriminate.
  - reflexivity.
  - simpl. lia.
Defined.

(** C1, as stated, fails: while resetPassword runs on Alice's valid code,
    the journal holds a table, different from the final one, in which her
    credential is already the new hash and the reset code is still
    stored. *)
Lemma resetPassword_intermediate_state :
  exists (t : list User) (u : User),
    In t (commits (snd (resetPassword (C:=demo)
                          {| rp_email := "a@x.com"; rp_otp := "123456";
                             rp_newPassword := "secret2" |}
                          1000 1100 1200 world0)))
    /\ t <> rows (snd (resetPassword (C:=demo)
                         {| rp_email := "a@x.com"; rp_otp := "123456";
                            rp_newPassword := "secret2" |}
                         1000 1100 1200 world0))
    /\ find (matches (ByEmail "a@x.com")) t = Some u
    /\ password u = Some (bcrypt_hash (Collaborators:=demo) "secret2")
    /\ resetOTP u = Some "123456".
Proof.
  eexists. eexists. vm_compute. split; [left; reflexivity|].
  split; [discriminate|]. repeat split.
Qed.

(** ** login *)

Section Login.

Context {C : Collaborators}.

(** C3, as the code has it. A login for an unknown e-mail and a login with
    a wrong password get the same generic failure; a login for an account
    without a password gets another failure, which tells the caller that
    the account exists and signs in through Google. *)
Theorem login_failure_messages (w : World) (e1 p1 e2 p2 e3 p3 h : string)
  (u2 u3 : User) :
  online w = true ->
  find (matches (ByEmail e1)) (rows w) = None ->
  find (matches (ByEmail e2)) (rows w) = Some u2 ->
  truthy_opt (password u2) = false ->
  find (matches (ByEmail e3)) (rows w) = Some u3 ->
  password u3 = Some h -> h <> "" -> bcrypt_compare p3 h = false ->
  login e1 p1 w = (Ok (failure RESPONSE_MESSAGES.INVALID_CREDENTIALS), w)
  /\ login e3 p3 w = (Ok (failure RESPONSE_MESSAGES.INVALID_CREDENTIALS), w)
  /\ login e2 p2 w = (Ok (failure "Please sign in using Google OAuth"), w)
  /\ login e2 p2 w <> login e1 p1 w.
Proof.
  intros Hon H1 H2 Hp2 H3 Hp3 Hh Hcmp.
  assert (L1 : login e1 p1 w
               = (Ok (failure RESPONSE_MESSAGES.INVALID_CREDENTIALS), w)).
  { unfold login, findByEmail, try_catch, bind, prisma_findUnique.
    now rewrite Hon, H1. }
  assert (L2 : login e2 p2 w
               = (Ok (failure "Please sign in using Google OAuth"), w)).
  { unfold login, findByEmail, try_catch, bind, prisma_findUnique.
    rewrite Hon, H2. destruct (password u2) as [s|]; [|reflexivity].
    simpl in Hp2. now rewrite Hp2. }
  repeat split.
  - exact L1.
  - unfold login, findByEmail, try_catch, bind, prisma_findUnique.
    rewrite Hon, H3, Hp3. apply truthy_true in Hh. rewrite Hh, Hcmp.
    reflexivity.
  - exact L2.
  - rewrite L1, L2. discriminate.
Qed.

End Login.

Lemma login_failure_messages_witness :
  login (C:=demo) "nobody@x.com" "pw" world0
  = (Ok (failure RESPONSE_MESSAGES.INVALID_CREDENTIALS), world0)
  /\ login (C:=demo) "a@x.com" "wrong" world0
     = (Ok (failure RESPONSE_MESSAGES.INVALID_CREDENTIALS), world0)
  /\ login (C:=demo) "g@x.com" "pw" world0
     = (Ok (failure "Please sign in using Google OAuth"), world0)
  /\ login (C:=demo) "g@x.com" "pw" world0
     <> login (C:=demo) "nobody@x.com" "pw" world0.
Proof.
  apply (login_failure_messages (C:=demo) world0 "nobody@x.com" "pw"
           "g@x.com" "pw" "a@x.com" "wrong" "$2a$10$secret1" gina alice).
  - reflexivity.
  - reflexivity.
  - reflexivity.
  - reflexivity.
  - reflexivity.
  - reflexivity.
  - discriminate.
  - reflexivity.
Defined.

(** C3, as stated, fails: the failure for Gina, whose account has no
    password, differs from the failure for an e-mail nobody registered. *)
Lemma login_no_credential_distinguishable :
  fst (login (C:=demo) "g@x.com" "pw" world0)
  <> fst (login (C:=demo) "nobody@x.com" "pw" world0).
Proof. vm_compute. discriminate. Qed.

(** ** forgotPassword *)

Lemma app_last_nonempty (s : string) (c : ascii) : (s ++ String c "") <> "".
Proof. destruct s; discriminate. Qed.

Lemma digitsFuel_nonempty (f : nat) (n : Z) : digitsFuel (S f) n <> "".
Proof.
  simpl. destruct (n <? 10); [discriminate | apply app_last_nonempty].
Qed.

Lemma toString_nonempty (n : Z) : truthy (toString n) = true.
Proof.
  apply truthy_true. unfold toString, digits.
  destruct (n <? 0); [discriminate | apply digitsFuel_nonempty].
Qed.

Section ForgotPassword.

Context {C : Collaborators}.


Lemma forgotPassword_delivered (w : World) (e : string) (r : Z)
  (dateNow newDate : Date) :
  (forall o, exists messageId, sendMail o = Ok messageId) ->
  fst (forgotPassword e r dateNow newDate w)
  = Ok (if online w then otp_sent
        else failure RESPONSE_MESSAGES.SERVER_ERROR).
Proof.
  intros Hmail.
  unfold forgotPassword, findByEmail, try_catch at 1 2, bind at 1,
    prisma_findUnique.
  destruct (online w) eqn:Hon; [|reflexivity].
  destruct (find (matches (ByEmail e)) (rows w)) as [u|] eqn:Hf;
    [|reflexivity].
  unfold sendOTPEmail.
  destruct (Hmail {| to := e; subject := "Password Reset - OTP Verification";
                     text := generatePlainTextEmail (name u) (generateOTP r) |})
    as [mid ->].
  cbn [EmailResult.otp EmailResult.success andb].
  unfold generateOTP. rewrite toString_nonempty.
  unfold bind.
  rewrite (storeOTP_run e (toString r) dateNow newDate w u Hon Hf).
  reflexivity.
Qed.

(** When the mail transport delivers, the answer of forgotPassword does not
    depend on the e-mail submitted: it is the OTP_SENT success while the
    store is reachable, and the generic server error otherwise. *)
Lemma forgotPassword_uniform_when_delivered (w : World) (e1 e2 : string)
  (r1 r2 : Z) (d1 n1 d2 n2 : Date) :
  (forall o, exists messageId, sendMail o = Ok messageId) ->
  fst (forgotPassword e1 r1 d1 n1 w) = fst (forgotPassword e2 r2 d2 n2 w)
  /\ (online w = true -> fst (forgotPassword e1 r1 d1 n1 w) = Ok otp_sent).
Proof.
  intros Hmail. split.
  - now rewrite !forgotPassword_delivered.
  - intros Hon. rewrite forgotPassword_delivered by assumption.
    now rewrite Hon.
Qed.

(** C7. forgotPassword announces, in its own comment, one success message
    whether or not the account exists, and breaks it: when the store is
    reachable and the transport refuses the message, the request for an
    e-mail that has an account is answered with the EMAIL_SEND_FAILED
    failure, the request for an e-mail that has none with the OTP_SENT
    success; neither writes to the store, and the two answers differ. *)
Theorem forgotPassword_reveals_account_when_mail_fails (w : World)
  (e1 e2 : string) (r1 r2 : Z) (d1 n1 d2 n2 : Date) (u : User) (err : Exn) :
  online w = true ->
  find (matches (ByEmail e1)) (rows w) = Some u ->
  find (matches (ByEmail e2)) (rows w) = None ->
  sendMail {| to := e1; subject := "Password Reset - OTP Verification";
              text := generatePlainTextEmail (name u) (generateOTP r1) |}
  = Throw err ->
  forgotPassword e1 r1 d1 n1 w
  = (Ok (failure RESPONSE_MESSAGES.EMAIL_SEND_FAILED), w)
  /\ forgotPassword e2 r2 d2 n2 w = (Ok otp_sent, w)
  /\ fst (forgotPassword e1 r1 d1 n1 w) <> fst (forgotPassword e2 r2 d2 n2 w).
Proof.
  intros Hon Hf1 Hf2 Hmail.
  assert (H1 : forgotPassword e1 r1 d1 n1 w
               = (Ok (failure RESPONSE_MESSAGES.EMAIL_SEND_FAILED), w)).
  { unfold forgotPassword, findByEmail, try_catch, bind, prisma_findUnique.
    rewrite Hon, Hf1. unfold sendOTPEmail. rewrite Hmail. reflexivity. }
  assert (H2 : forgotPassword e2 r2 d2 n2 w = (Ok otp_sent, w)).
  { unfold forgotPassword, findByEmail, try_catch, bind, prisma_findUnique.
    rewrite Hon, Hf2. reflexivity. }
  rewrite H1, H2. repeat split. discriminate.
Qed.

End ForgotPassword.

Lemma forgotPassword_uniform_when_delivered_example :
  fst (forgotPassword (C:=demo) "a@x.com" 123456 1000 1001 world0)
  = fst (forgotPassword (C:=demo) "nobody@x.com" 234567 1000 1001 world0).
Proof. reflexivity. Qed.

Lemma forgotPassword_reveals_account_when_mail_fails_witness :
  forgotPassword (C:=demo_mail_down) "a@x.com" 123456 1000 1001 world0
  = (Ok (failure RESPONSE_MESSAGES.EMAIL_SEND_FAILED), world0)
  /\ forgotPassword (C:=demo_mail_down) "nobody@x.com" 123456 1000 1001
       world0
     = (Ok otp_sent, world0)
  /\ fst (forgotPassword (C:=demo_mail_down) "a@x.com" 123456 1000 1001
            world0)
     <> fst (forgotPassword (C:=demo_mail_down) "nobody@x.com" 123456 1000
               1001 world0).
Proof.
  apply (forgotPassword_reveals_account_when_mail_fails (C:=demo_mail_down)
           world0 "a@x.com" "nobody@x.com" 123456 123456 1000 1001 1000 1001
           alice (JsError "connect ECONNREFUSED")).
  - reflexivity.
  - reflexivity.
  - reflexivity.
  - reflexivity.
Defined.

(** ** emailExists and GET /check-email *)

Lemma email_taken_spec (e : string) (l : list User) :
  email_taken e l = true <-> exists u, In u l /\ email u = e.
Proof.
  unfold email_taken. rewrite existsb_exists. split.
  - intros [u [Hin H]]. exists u. split; [assumption|].
    now apply String.eqb_eq.
  - intros [u [Hin H]]. exists u. split; [assumption|].
    now apply String.eqb_eq.
Qed.

Lemma find_email_taken (e : string) (l : list User) :
  match find (matches (ByEmail e)) l with Some _ => true | None => false end
  = email_taken e l.
Proof.
  unfold email_taken. induction l as [|r rs IH]; simpl; [reflexivity|].
  destruct (email r =? e)%string; [reflexivity | exact IH].
Qed.

Lemma emailExists_run (e : string) (w : World) :
  emailExists e w = (Ok (online w && email_taken e (rows w)), w).
Proof.
  unfold emailExists, findByEmail, try_catch, bind, prisma_findUnique, ret.
  destruct (online w); [|reflexivity]. simpl.
  now rewrite <- find_email_taken.
Qed.

(** C10. The route GET /check-email carries no middleware; for every
    e-mail string emailExists answers true exactly when the store is
    reachable and holds a row with that e-mail (false when the lookup
    throws); and for every non-empty e-mail the controller returns that
    flag in a 200 response, without touching the store. *)
Theorem checkEmail_existence_oracle (e : string) (w : World) :
  e <> "" ->
  (exists r, route_of "GET" "/check-email" = Some r /\ middlewares r = []
             /\ handler r = H_checkEmail)
  /\ emailExists e w = (Ok (online w && email_taken e (rows w)), w)
  /\ (online w && email_taken e (rows w) = true <->
      online w = true /\ exists u, In u (rows w) /\ email u = e)
  /\ checkEmail (QString e) w
     = (Ok {| status := 200;
              body := {| success := true;
                         message := "Email check completed";
                         data := Some {| exists_ :=
                                   online w && email_taken e (rows w) |};
                         error := None |} |}, w).
Proof.
  intros Hne. split; [|split; [|split]].
  - eexists. repeat split.
  - apply emailExists_run.
  - rewrite andb_true_iff, email_taken_spec. reflexivity.
  - unfold checkEmail, try_catch, bind.
    apply truthy_true in Hne. rewrite Hne. simpl.
    now rewrite emailExists_run.
Qed.

Lemma checkEmail_existence_oracle_witness :
  checkEmail (QString "a@x.com") world0
  = (Ok {| status := 200;
           body := {| success := true; message := "Email check completed";
                      data := Some {| exists_ := true |};
                      error := None |} |}, world0)
  /\ checkEmail (QString "nobody@x.com") world0
     = (Ok {| status := 200;
              body := {| success := true; message := "Email check completed";
                         data := Some {| exists_ := false |};
                         error := None |} |}, world0).
Proof.
  split.
  - destruct (checkEmail_existence_oracle "a@x.com" world0)
      as [_ [_ [_ H]]]; [discriminate|].
    rewrite H. reflexivity.
  - destruct (checkEmail_existence_oracle "nobody@x.com" world0)
      as [_ [_ [_ H]]]; [discriminate|].
    rewrite H. reflexivity.
Defined.

(** ** Google identity resolution *)

Section Resolution.

Context {C : Collaborators}.

(** C9. A profile without a first e-mail value, or with an empty e-mail or
    id, makes findOrCreateGoogleUser throw before it touches the store;
    the verify callback reports an error through [done] likewise.  The
    world, journal included, is the one the call started from. *)
Theorem findOrCreateGoogleUser_incomplete (profile : GoogleProfile.t)
  (now : Date) (w : World) (clientId clientSecret : option string) :
  truthy_opt (first_value (GoogleProfile.emails profile)) = false
  \/ truthy (GoogleProfile.id profile) = false ->
  findOrCreateGoogleUser profile now w = (Throw MISSING_PROFILE, w)
  /\ exists err,
       googleStrategyVerify clientId clientSecret profile now w
       = (Ok {| done_error := Some err; done_user := None |}, w).
Proof.
  intros H. split.
  - unfold findOrCreateGoogleUser.
    destruct (first_value (GoogleProfile.emails profile)) as [e|];
      [|reflexivity].
    simpl in H. destruct H as [H|H]; rewrite H; simpl; [reflexivity|].
    now rewrite orb_true_r.
  - unfold googleStrategyVerify.
    destruct (negb (truthy_opt clientId) || negb (truthy_opt clientSecret));
      [now eexists|].
    unfold try_catch.
    destruct (first_value (GoogleProfile.emails profile)) as [e|];
      [|now eexists].
    simpl in H. destruct H as [H|H]; rewrite H; simpl; [now eexists|].
    rewrite orb_true_r. now eexists.
Qed.

End Resolution.

Lemma findOrCreateGoogleUser_incomplete_witness :
  findOrCreateGoogleUser (C:=demo) (profile_of "g9" None "Nora") 1000 world0
  = (Throw MISSING_PROFILE, world0)
  /\ findOrCreateGoogleUser (C:=demo) (profile_of "" (Some "n@x.com") "Nora")
       1000 world0
     = (Throw MISSING_PROFILE, world0).
Proof.
  split.
  - apply (findOrCreateGoogleUser_incomplete (C:=demo)
             (profile_of "g9" None "Nora") 1000 world0 None None).
    left. reflexivity.
  - apply (findOrCreateGoogleUser_incomplete (C:=demo)
             (profile_of "" (Some "n@x.com") "Nora") 1000 world0 None None).
    right. reflexivity.
Defined.

Lemma googleId_free (gid : string) (sel : User -> bool) (l : list User) :
  find (matches (ByGoogleId gid)) l = None ->
  googleId_taken (Some gid) (remove_first sel l) = false.
Proof.
  intros H. apply find_none_existsb in H.
  apply (existsb_remove_first _ sel) in H. exact H.
Qed.

Section Linking.

Context {C : Collaborators}.


(** Step 1 of the verify callback: an account that already carries the
    asserted Google id is refreshed and returned; the e-mail lookup and the
    creation are not reached. *)
Lemma googleStrategyVerify_found (profile : GoogleProfile.t) (e : string)
  (now : Date) (w : World) (u : User) (clientId clientSecret : option string) :
  online w = true -> NoDup (map id (rows w)) ->
  truthy_opt clientId = true -> truthy_opt clientSecret = true ->
  first_value (GoogleProfile.emails profile) = Some e -> e <> "" ->
  GoogleProfile.id profile <> "" ->
  find (matches (ByGoogleId (GoogleProfile.id profile))) (rows w) = Some u ->
  let u' := written (refresh_data profile now) now u in
  googleStrategyVerify clientId clientSecret profile now w
  = (Ok {| done_error := None; done_user := mapDbUserToExpressUser u' |},
     commit (update_first (matches (ById (id u))) (fun _ => u') (rows w)) w)
  /\ name u' = GoogleProfile.displayName profile
  /\ emailVerified u' = true /\ updatedAt u' = now
  /\ id u' = id u /\ email u' = email u /\ password u' = password u
  /\ googleId u' = googleId u.
Proof.
  intros Hon Hnd Hcid Hcs He Hne Hgid Hf u'. split.
  - unfold googleStrategyVerify. rewrite Hcid, Hcs. cbn [negb orb].
    unfold try_catch, bind at 1. cbv zeta. rewrite He.
    apply truthy_true in Hne, Hgid. rewrite Hne, Hgid. cbn [negb orb].
    unfold prisma_findUnique at 1. rewrite Hon, Hf.
    unfold bind.
    rewrite (prisma_update_same_key (ById (id u)) (refresh_data profile now)
               now w u Hon).
    + reflexivity.
    + now apply (find_by_own_id (matches (ByGoogleId (GoogleProfile.id profile)))).
    + unfold written. now destruct (updatedAt_auto && _).
  - unfold u', written, refresh_data.
    destruct (updatedAt_auto && _); repeat split.
Qed.

(** Step 1 of findOrCreateGoogleUser: the account found by Google id is
    returned as it is stored; nothing is written. *)
Lemma findOrCreateGoogleUser_found (profile : GoogleProfile.t) (e : string)
  (now : Date) (w : World) (u : User) :
  online w = true ->
  first_value (GoogleProfile.emails profile) = Some e -> e <> "" ->
  GoogleProfile.id profile <> "" ->
  find (matches (ByGoogleId (GoogleProfile.id profile))) (rows w) = Some u ->
  findOrCreateGoogleUser profile now w = (Ok (mapDbUserToExpressUser u), w).
Proof.
  intros Hon He Hne Hgid Hf. unfold findOrCreateGoogleUser. rewrite He.
  apply truthy_true in Hne, Hgid. rewrite Hne, Hgid. cbn [negb orb].
  unfold try_catch, bind, prisma_findUnique. now rewrite Hon, Hf.
Qed.

(** C8. Linking an account found by e-mail (no account carries the Google
    id yet) writes googleId, provider 'google' and emailVerified on that
    row and keeps its id and its stored password, in the verify callback and
    in findOrCreateGoogleUser alike; no row is added.  The callback sets
    updatedAt itself; findOrCreateGoogleUser leaves it to the schema. *)
Theorem link_preserves_password (profile : GoogleProfile.t) (e : string)
  (now : Date) (w : World) (u : User) (clientId clientSecret : option string) :
  online w = true -> NoDup (map id (rows w)) ->
  truthy_opt clientId = true -> truthy_opt clientSecret = true ->
  first_value (GoogleProfile.emails profile) = Some e -> e <> "" ->
  GoogleProfile.id profile <> "" ->
  find (matches (ByGoogleId (GoogleProfile.id profile))) (rows w) = None ->
  find (matches (ByEmail e)) (rows w) = Some u ->
  (exists u',
     find (matches (ByEmail e))
       (rows (snd (googleStrategyVerify clientId clientSecret profile now w)))
     = Some u'
     /\ List.length (rows (snd (googleStrategyVerify clientId clientSecret
                             profile now w))) = List.length (rows w)
     /\ id u' = id u
     /\ googleId u' = Some (GoogleProfile.id profile)
     /\ provider u' = Some "google"
     /\ emailVerified u' = true
     /\ updatedAt u' = now
     /\ password u' = password u)
  /\ (exists u',
        find (matches (ByEmail e))
          (rows (snd (findOrCreateGoogleUser profile now w))) = Some u'
        /\ List.length (rows (snd (findOrCreateGoogleUser profile now w)))
           = List.length (rows w)
        /\ id u' = id u
        /\ googleId u' = Some (GoogleProfile.id profile)
        /\ provider u' = Some "google"
        /\ emailVerified u' = true
        /\ (updatedAt_auto = true -> updatedAt u' = now)
        /\ password u' = password u).
Proof.
  intros Hon Hnd Hcid Hcs He Hne Hgid Hg Hf.
  assert (Hown : find (matches (ById (id u))) (rows w) = Some u)
    by now apply (find_by_own_id (matches (ByEmail e))).
  assert (Hm : matches (ByEmail e) u = true) by now apply find_In in Hf.
  apply truthy_true in Hne, Hgid.
  split.
  - set (data := [FgoogleId (Some (GoogleProfile.id profile));
                  Fprovider (Some "google");
                  FprofilePicture
                    (or_null (first_value (GoogleProfile.photos profile)));
                  FemailVerified true; FupdatedAt now]).
    assert (Hrun :
      googleStrategyVerify clientId clientSecret profile now w
      = (Ok {| done_error := None;
               done_user := mapDbUserToExpressUser (written data now u) |},
         commit (update_first (matches (ById (id u)))
                   (fun _ => written data now u) (rows w)) w)).
    { unfold googleStrategyVerify. rewrite Hcid, Hcs. cbn [negb orb].
      unfold try_catch, bind at 1. cbv zeta. rewrite He, Hne, Hgid.
      cbn [negb orb]. unfold prisma_findUnique at 1. rewrite Hon, Hg.
      unfold bind at 1. unfold prisma_findUnique at 1. rewrite Hon, Hf.
      unfold bind. fold data.
      rewrite (prisma_update_ok (ById (id u)) data now w u Hon Hown);
        [reflexivity|].
      replace (googleId (written data now u))
        with (Some (GoogleProfile.id profile))
        by (unfold written; now destruct (updatedAt_auto && _)).
      now rewrite googleId_free. }
    rewrite Hrun. cbn [snd rows commit].
    exists (written data now u). split; [|split].
    + apply find_update_by_id; try assumption.
      simpl in *. now rewrite email_written.
    + apply length_update_first.
    + unfold written, data. destruct (updatedAt_auto && _); repeat split.
  - set (data := [FgoogleId (Some (GoogleProfile.id profile));
                  Fprovider (Some "google");
                  FprofilePicture
                    (or_null (first_value (GoogleProfile.photos profile)));
                  FemailVerified true]).
    assert (Hrun :
      findOrCreateGoogleUser profile now w
      = (Ok (mapDbUserToExpressUser (written data now u)),
         commit (update_first (matches (ById (id u)))
                   (fun _ => written data now u) (rows w)) w)).
    { unfold findOrCreateGoogleUser. rewrite He, Hne, Hgid. cbn [negb orb].
      unfold try_catch, bind at 1. unfold prisma_findUnique at 1.
      rewrite Hon, Hg.
      unfold bind at 1 2. unfold prisma_findUnique at 1. rewrite Hon, Hf.
      fold data.
      rewrite (prisma_update_ok (ById (id u)) data now w u Hon Hown);
        [reflexivity|].
      replace (googleId (written data now u))
        with (Some (GoogleProfile.id profile))
        by (unfold written; now destruct (updatedAt_auto && _)).
      now rewrite googleId_free. }
    rewrite Hrun. cbn [snd rows commit].
    exists (written data now u). split; [|split].
    + apply find_update_by_id; try assumption.
      simpl in *. now rewrite email_written.
    + apply length_update_first.
    + unfold written, data.
      destruct updatedAt_auto; simpl; repeat split; discriminate.
Qed.

End Linking.

Lemma link_preserves_password_witness :
  exists u',
    find (matches (ByEmail "a@x.com"))
      (rows (snd (googleStrategyVerify (C:=demo) (Some "client")
                    (Some "secret")
                    (profile_of "g1" (Some "a@x.com") "Alice") 2000 world0)))
    = Some u'
    /\ googleId u' = Some "g1" /\ provider u' = Some "google"
    /\ emailVerified u' = true /\ updatedAt u' = 2000
    /\ password u' = Some "$2a$10$secret1".
Proof.
  destruct (link_preserves_password (C:=demo)
              (profile_of "g1" (Some "a@x.com") "Alice") "a@x.com" 2000
              world0 alice (Some "client") (Some "secret"))
    as [[u' [Hf [_ [_ [Hg [Hp [Hv [Hu Hpw]]]]]]]] _].
  - reflexivity.
  - repeat constructor; simpl; intuition discriminate.
  - reflexivity.
  - reflexivity.
  - reflexivity.
  - discriminate.
  - discriminate.
  - reflexivity.
  - reflexivity.
  - exists u'. repeat split; assumption.
Defined.

(** C5: the two resolvers disagree on step 1. For Gina, whose account
    carries Google id "g2", findOrCreateGoogleUser returns the stored row
    under its old name and writes nothing, while the verify callback, given
    the same assertion, refreshes name, emailVerified and updatedAt. *)
Theorem findOrCreateGoogleUser_skips_refresh :
  findOrCreateGoogleUser (C:=demo)
    (profile_of "g2" (Some "g@x.com") "Gina Renamed") 2000 world0
  = (Ok (Some {| eu_id := 2; eu_email := "g@x.com"; eu_name := "Gina";
                 eu_provider := Some google |}), world0)
  /\ exists u',
       find (matches (ByGoogleId "g2"))
         (rows (snd (googleStrategyVerify (C:=demo) (Some "client")
                       (Some "secret")
                       (profile_of "g2" (Some "g@x.com") "Gina Renamed")
                       2000 world0)))
       = Some u'
       /\ name u' = "Gina Renamed" /\ emailVerified u' = true
       /\ updatedAt u' = 2000.
Proof.
  split.
  - reflexivity.
  - eexists. vm_compute. repeat split.
Qed.

(** ** generateOTP *)

Lemma string_length_app (s t : string) :
  String.length (s ++ t) = (String.length s + String.length t)%nat.
Proof. induction s as [|c s IH]; simpl; [reflexivity | now rewrite IH]. Qed.

Lemma allDigits_app (s t : string) :
  allDigits (s ++ t) = allDigits s && allDigits t.
Proof.
  induction s as [|c s IH]; simpl; [reflexivity|].
  now rewrite IH, andb_assoc.
Qed.

Lemma parseDigits_app_last (s : string) (c : ascii) (acc : Z) :
  parseDigits acc (s ++ String c "") = 10 * parseDigits acc s + digitVal c.
Proof.
  revert acc. induction s as [|d s IH]; intros acc; simpl;
    [reflexivity | apply IH].
Qed.

Lemma digit_cases (d : Z) :
  0 <= d < 10 ->
  d = 0 \/ d = 1 \/ d = 2 \/ d = 3 \/ d = 4 \/ d = 5 \/ d = 6 \/ d = 7
  \/ d = 8 \/ d = 9.
Proof. lia. Qed.

Lemma digitVal_digitChar (d : Z) :
  0 <= d < 10 -> digitVal (digitChar d) = d.
Proof.
  intros H. apply digit_cases in H.
  repeat (destruct H as [->|H]; [reflexivity|]). now subst.
Qed.

Lemma isDigit_digitChar (d : Z) :
  0 <= d < 10 -> isDigit (digitChar d) = true.
Proof.
  intros H. unfold isDigit. cbv zeta. rewrite digitVal_digitChar by assumption.
  apply andb_true_iff. split; apply Z.leb_le; lia.
Qed.

Lemma parse_digitsFuel (f : nat) (n : Z) :
  0 <= n < 10 ^ Z.of_nat f -> parseDigits 0 (digitsFuel f n) = n.
Proof.
  revert n. induction f as [|f IH]; intros n Hn.
  - simpl in *. lia.
  - cbn [digitsFuel]. destruct (n <? 10) eqn:E.
    + apply Z.ltb_lt in E. cbn [parseDigits].
      rewrite digitVal_digitChar; lia.
    + apply Z.ltb_ge in E. rewrite parseDigits_app_last.
      rewrite Nat2Z.inj_succ, Z.pow_succ_r in Hn by lia.
      rewrite IH.
      * rewrite digitVal_digitChar by (apply Z.mod_pos_bound; lia).
        symmetry. apply Z.div_mod. lia.
      * split; [apply Z.div_pos; lia|].
        apply Z.div_lt_upper_bound; lia.
Qed.

Lemma digits_fuel_enough (n : Z) :
  0 <= n -> n < 10 ^ Z.of_nat (S (Z.to_nat (Z.log2 n))).
Proof.
  intros Hn. pose proof (Z.log2_nonneg n) as Hl.
  rewrite Nat2Z.inj_succ, Z2Nat.id by assumption.
  destruct (Z.eq_dec n 0) as [->|Hz].
  - simpl. lia.
  - pose proof (Z.log2_spec n ltac:(lia)) as [_ Hlt].
    eapply Z.lt_le_trans; [exact Hlt|].
    apply Z.pow_le_mono_l. lia.
Qed.

Lemma parse_toString (n : Z) : 0 <= n -> parseDigits 0 (toString n) = n.
Proof.
  intros Hn. unfold toString.
  destruct (n <? 0) eqn:E; [apply Z.ltb_lt in E; lia|].
  unfold digits. apply parse_digitsFuel. split; [assumption|].
  now apply digits_fuel_enough.
Qed.

Lemma allDigits_digitsFuel (f : nat) (n : Z) :
  0 <= n -> allDigits (digitsFuel f n) = true.
Proof.
  revert n. induction f as [|f IH]; intros n Hn; [reflexivity|].
  cbn [digitsFuel]. destruct (n <? 10) eqn:E.
  - apply Z.ltb_lt in E. cbn [allDigits].
    rewrite isDigit_digitChar by lia. reflexivity.
  - rewrite allDigits_app, IH by (apply Z.div_pos; lia).
    cbn [allDigits andb].
    rewrite isDigit_digitChar by (apply Z.mod_pos_bound; lia). reflexivity.
Qed.

Lemma length_digitsFuel (k f : nat) (n : Z) :
  (k < f)%nat -> 10 ^ Z.of_nat k <= n < 10 ^ Z.of_nat (S k) ->
  String.length (digitsFuel f n) = S k.
Proof.
  revert f n. induction k as [|k IH]; intros f n Hf Hn;
    destruct f as [|f]; try lia; cbn [digitsFuel].
  - simpl in Hn. destruct (n <? 10) eqn:E; [reflexivity|].
    apply Z.ltb_ge in E. lia.
  - rewrite !Nat2Z.inj_succ, !Z.pow_succ_r in Hn by lia.
    assert (0 < 10 ^ Z.of_nat k) by (apply Z.pow_pos_nonneg; lia).
    destruct (n <? 10) eqn:E; [apply Z.ltb_lt in E; lia|].
    rewrite string_length_app, (IH f (n / 10)).
    + simpl. lia.
    + lia.
    + rewrite Nat2Z.inj_succ, Z.pow_succ_r by lia. split.
      * apply Z.div_le_lower_bound; lia.
      * apply Z.div_lt_upper_bound; lia.
Qed.

Lemma parseDigits_bound (s : string) (acc : Z) :
  allDigits s = true -> 0 <= acc ->
  parseDigits acc s < (acc + 1) * 10 ^ Z.of_nat (String.length s).
Proof.
  revert acc. induction s as [|c s IH]; intros acc Hd Hacc.
  - simpl. lia.
  - cbn [allDigits] in Hd. apply andb_true_iff in Hd as [Hc Hs].
    unfold isDigit in Hc. cbv zeta in Hc.
    apply andb_true_iff in Hc as [Hc0 Hc9].
    apply Z.leb_le in Hc0, Hc9.
    cbn [parseDigits String.length]. rewrite Nat2Z.inj_succ, Z.pow_succ_r by lia.
    specialize (IH (10 * acc + digitVal c) Hs ltac:(lia)).
    assert (0 < 10 ^ Z.of_nat (String.length s))
      by (apply Z.pow_pos_nonneg; lia).
    nia.
Qed.

(** C4, checked on the code. Whatever crypto.randomInt(100000, 999999)
    returns, generateOTP yields six decimal digits that read back as the
    number drawn, never start with 0, determine the draw, and are never
    "999999": the draws are the 899999 integers from 100000 to 999998. *)
Theorem generateOTP_misses_999999 (r : Z) :
  randomInt_returns r ->
  String.length (generateOTP r) = 6%nat
  /\ allDigits (generateOTP r) = true
  /\ parseDigits 0 (generateOTP r) = r
  /\ (forall s, generateOTP r <> String "0" s)
  /\ (forall r', randomInt_returns r' ->
        generateOTP r' = generateOTP r -> r' = r)
  /\ generateOTP r <> "999999"
  /\ randomInt_max - randomInt_min = 899999.
Proof.
  unfold randomInt_returns, randomInt_min, randomInt_max, generateOTP.
  intros Hr.
  assert (Hparse : parseDigits 0 (toString r) = r)
    by (apply parse_toString; lia).
  assert (Hdig : toString r = digits r).
  { unfold toString. destruct (r <? 0) eqn:E; [|reflexivity].
    apply Z.ltb_lt in E. lia. }
  assert (Hlen : String.length (toString r) = 6%nat).
  { rewrite Hdig. unfold digits. apply length_digitsFuel.
    - assert (16 <= Z.log2 r) by (apply Z.log2_le_pow2; simpl; lia). lia.
    - simpl. lia. }
  assert (Hall : allDigits (toString r) = true).
  { rewrite Hdig. apply allDigits_digitsFuel. lia. }
  repeat split; try assumption.
  - intros s Hs. rewrite Hs in Hparse, Hlen, Hall.
    cbn [parseDigits allDigits String.length] in *.
    apply andb_true_iff in Hall as [_ Hall]. injection Hlen as Hlen.
    pose proof (parseDigits_bound s (10 * 0 + digitVal "0") Hall
                  ltac:(vm_compute; discriminate)) as Hb.
    rewrite Hparse, Hlen in Hb.
    replace ((10 * 0 + digitVal "0" + 1) * 10 ^ Z.of_nat 5) with 100000
      in Hb by reflexivity.
    lia.
  - intros r' Hr' Heq.
    rewrite <- Hparse, <- Heq. symmetry. apply parse_toString. lia.
  - intros Hs. rewrite Hs in Hparse. vm_compute in Hparse. lia.
Qed.

Lemma generateOTP_misses_999999_witness :
  generateOTP 123456 = "123456" /\ generateOTP 999998 <> "999999".
Proof.
  split.
  - reflexivity.
  - apply (generateOTP_misses_999999 999998).
    unfold randomInt_returns, randomInt_min, randomInt_max. lia.
Defined.

(** ** Scenarios of the specification, run on the model *)

(** Two reset requests in a row: the second code replaces the first, and
    the first no longer verifies. *)
Example second_challenge_supersedes_first :
  fst (verifyOTP "a@x.com" "111111" 3000
         (serve (C:=demo) (Req_forgotPassword "a@x.com" 222222 2000 2001)
            (serve (C:=demo) (Req_forgotPassword "a@x.com" 111111 1000 1001)
               world_alice_registered)))
  = Ok (outcome_result Mismatch)
  /\ fst (verifyOTP "a@x.com" "222222" 3000
            (serve (C:=demo) (Req_forgotPassword "a@x.com" 222222 2000 2001)
               (serve (C:=demo) (Req_forgotPassword "a@x.com" 111111 1000 1001)
                  world_alice_registered)))
     = Ok (outcome_result Verified).
Proof. split; reflexivity. Qed.

(** A code consumed by a successful reset is gone: the same request sent
    again finds no challenge. *)
Example consumed_challenge_is_gone :
  fst (verifyOTP "a@x.com" "123456" 1300
         (serve (C:=demo)
            (Req_resetPassword
               {| rp_email := "a@x.com"; rp_otp := "123456";
                  rp_newPassword := "secret2" |} 1000 1100 1200) world0))
  = Ok (outcome_result NoChallenge).
Proof. reflexivity. Qed.

(** * Further properties of the code *)

(** ** register, login, validateCredentials *)

Lemma find_app_none {A} (p : A -> bool) (l l' : list A) :
  find p l = None -> find p (l ++ l') = find p l'.
Proof.
  induction l as [|a l IH]; simpl; [reflexivity|].
  destruct (p a); [discriminate | exact IH].
Qed.

Lemma email_free (e : string) (l : list User) :
  find (matches (ByEmail e)) l = None -> email_taken e l = false.
Proof. intros H. rewrite <- find_email_taken. now rewrite H. Qed.

Section Accounts.

Context {C : Collaborators}.

(** X1. Registering an e-mail that already has an account is refused with
    USER_EXISTS; nothing is hashed into the store and nothing is written. *)
Theorem register_existing_email (d : RegisterRequest) (now : Date)
  (w : World) (u : User) :
  online w = true ->
  find (matches (ByEmail (rr_email d))) (rows w) = Some u ->
  register d now w = (Ok (failure RESPONSE_MESSAGES.USER_EXISTS), w).
Proof.
  intros Hon Hf.
  unfold register, findByEmail, try_catch, bind, prisma_findUnique.
  now rewrite Hon, Hf.
Qed.

Lemma register_run (d : RegisterRequest) (now : Date) (w : World) :
  online w = true ->
  find (matches (ByEmail (rr_email d))) (rows w) = None ->
  bcrypt_hash (rr_password d) <> "" ->
  let u := {| id := nextId w; name := rr_name d; email := rr_email d;
              password := Some (bcrypt_hash (rr_password d));
              googleId := None; provider := Some "local";
              profilePicture := None; emailVerified := false;
              resetOTP := None; otpCreatedAt := None; otpExpiresAt := None;
              passwordUpdatedAt := None; createdAt := now;
              updatedAt := now |} in
  register d now w
  = (Ok (authSuccess RESPONSE_MESSAGES.USER_CREATED u "local"),
     {| rows := (rows w ++ [u])%list; nextId := nextId w + 1;
        online := online w;
        commits := (commits w ++ [rows w ++ [u]])%list |}).
Proof.
  intros Hon Hf Hh u.
  unfold register, findByEmail, try_catch at 1 2, bind at 1,
    prisma_findUnique.
  rewrite Hon, Hf. cbv zeta.
  unfold create, try_catch, bind, prisma_create. cbn [cu_name cu_email
    cu_password cu_googleId cu_provider cu_profilePicture cu_emailVerified
    c_email c_googleId c_name c_password c_provider c_profilePicture
    c_emailVerified].
  rewrite Hon, (email_free _ _ Hf). cbn [or_null truthy_opt googleId_taken orb].
  apply truthy_true in Hh. unfold or_null, truthy_opt. rewrite Hh.
  reflexivity.
Qed.

(** X2. Registration followed by login. For a fresh e-mail, register adds
    one local account (id from the sequence, hash stored, not verified), and
    a login with the same password on the resulting store succeeds for that
    account, provided bcrypt accepts a password against its own hash. *)
Theorem register_then_login (d : RegisterRequest) (now : Date) (w : World) :
  online w = true ->
  find (matches (ByEmail (rr_email d))) (rows w) = None ->
  bcrypt_hash (rr_password d) <> "" ->
  bcrypt_compare (rr_password d) (bcrypt_hash (rr_password d)) = true ->
  exists u,
    fst (register d now w)
    = Ok (authSuccess RESPONSE_MESSAGES.USER_CREATED u "local")
    /\ rows (snd (register d now w)) = (rows w ++ [u])%list
    /\ id u = nextId w /\ email u = rr_email d
    /\ password u = Some (bcrypt_hash (rr_password d))
    /\ provider u = Some "local" /\ emailVerified u = false
    /\ login (rr_email d) (rr_password d) (snd (register d now w))
       = (Ok (authSuccess RESPONSE_MESSAGES.LOGIN_SUCCESS u "local"),
          snd (register d now w)).
Proof.
  intros Hon Hf Hh Hcmp.
  rewrite (register_run d now w Hon Hf Hh). cbn [fst snd rows].
  eexists. repeat split.
  unfold login, findByEmail, try_catch, bind, prisma_findUnique.
  cbn [online rows]. rewrite Hon, (find_app_none _ _ _ Hf).
  cbn [find matches email]. rewrite String.eqb_refl. cbn [password].
  apply truthy_true in Hh. rewrite Hh, Hcmp. reflexivity.
Qed.

(** X3. validateCredentials answers true exactly when login succeeds on
    the same store with the same e-mail and password; every failure of
    login, a storage error included, is [false]. *)
Theorem validateCredentials_agrees_with_login (e p : string) (w : World) :
  fst (validateCredentials e p w)
  = Ok match fst (login e p w) with
       | Ok r => success r
       | Throw _ => false
       end.
Proof.
  unfold validateCredentials, login, findByEmail, try_catch, bind,
    prisma_findUnique.
  destruct (online w); [|reflexivity].
  destruct (find (matches (ByEmail e)) (rows w)) as [u|]; [|reflexivity].
  destruct (password u) as [h|]; [|reflexivity].
  destruct (truthy h); [|reflexivity].
  destruct (bcrypt_compare p h); reflexivity.
Qed.

(** X4. The operations that only look accounts up never write: login,
    validateCredentials, emailExists, existsByEmail, findById and the
    check-email controller return the world they were given, journal
    included, on every input. *)
Theorem lookups_never_write (e p : string) (i : Z) (q : QueryValue)
  (w : World) :
  snd (login e p w) = w
  /\ snd (validateCredentials e p w) = w
  /\ snd (emailExists e w) = w
  /\ snd (existsByEmail e w) = w
  /\ snd (findById i w) = w
  /\ snd (checkEmail q w) = w.
Proof.
  repeat split.
  - unfold login, findByEmail, try_catch, bind, prisma_findUnique.
    destruct (online w); [|reflexivity].
    destruct (find _ _) as [u|]; [|reflexivity].
    destruct (password u) as [h|]; [|reflexivity].
    destruct (truthy h); [|reflexivity].
    destruct (bcrypt_compare p h); reflexivity.
  - unfold validateCredentials, findByEmail, try_catch, bind,
      prisma_findUnique.
    destruct (online w); [|reflexivity].
    destruct (find _ _) as [u|]; [|reflexivity].
    destruct (password u) as [h|]; [|reflexivity].
    destruct (truthy h); reflexivity.
  - now rewrite emailExists_run.
  - unfold existsByEmail, try_catch, bind, prisma_findUnique.
    destruct (online w); reflexivity.
  - unfold findById, try_catch, prisma_findUnique.
    destruct (online w); reflexivity.
  - unfold checkEmail, try_catch, bind.
    destruct q as [|s|]; try reflexivity.
    destruct (truthy s); [|reflexivity]. cbn [negb].
    now rewrite emailExists_run.
Qed.

(** X5. A reset whose code does not verify changes nothing: resetPassword
    answers with the message of verifyOTP and leaves the world, credential
    and challenge included, as it was. *)
Theorem resetPassword_rejected (d : ResetPasswordRequest)
  (tVerify tUpdate tClear : Date) (w : World) (v : OTPVerificationResult.t) :
  fst (verifyOTP (rp_email d) (rp_otp d) tVerify w) = Ok v ->
  OTPVerificationResult.valid v = false ->
  resetPassword d tVerify tUpdate tClear w
  = (Ok (failure (OTPVerificationResult.message v)), w).
Proof.
  intros Hv Hvalid. unfold resetPassword, try_catch, bind.
  rewrite (surjective_pairing (verifyOTP _ _ _ _)), Hv, verifyOTP_world.
  now rewrite Hvalid.
Qed.

End Accounts.

Lemma register_existing_email_witness :
  register (C:=demo)
    {| rr_name := "Al"; rr_email := "a@x.com"; rr_password := "other1" |}
    50 world0
  = (Ok (failure RESPONSE_MESSAGES.USER_EXISTS), world0).
Proof.
  apply (register_existing_email (C:=demo) _ 50 world0 alice); reflexivity.
Defined.

Lemma register_then_login_witness :
  exists u,
    fst (register (C:=demo)
           {| rr_name := "Bob"; rr_email := "b@x.com";
              rr_password := "hunter2" |} 50 world0)
    = Ok (authSuccess (C:=demo) RESPONSE_MESSAGES.USER_CREATED u "local")
    /\ id u = 3
    /\ fst (login (C:=demo) "b@x.com" "hunter2"
              (snd (register (C:=demo)
                      {| rr_name := "Bob"; rr_email := "b@x.com";
                         rr_password := "hunter2" |} 50 world0)))
       = Ok (authSuccess (C:=demo) RESPONSE_MESSAGES.LOGIN_SUCCESS u "local").
Proof.
  destruct (register_then_login (C:=demo)
              {| rr_name := "Bob"; rr_email := "b@x.com";
                 rr_password := "hunter2" |} 50 world0)
    as [u [H1 [_ [H2 [_ [_ [_ [_ H3]]]]]]]].
  - reflexivity.
  - reflexivity.
  - discriminate.
  - reflexivity.
  - exists u. apply (f_equal fst) in H3. repeat split; assumption.
Defined.

Lemma resetPassword_rejected_witness :
  resetPassword (C:=demo)
    {| rp_email := "a@x.com"; rp_otp := "000000";
       rp_newPassword := "secret2" |} 1000 1100 1200 world0
  = (Ok (failure "Invalid OTP code. Please check and try again."), world0).
Proof.
  apply (resetPassword_rejected (C:=demo)
           {| rp_email := "a@x.com"; rp_otp := "000000";
              rp_newPassword := "secret2" |} 1000 1100 1200 world0
           (outcome_result Mismatch)); reflexivity.
Defined.

(** ** The reset flow end to end *)

Section ResetFlow.

Context {C : Collaborators}.

Lemma resetPassword_run (d : ResetPasswordRequest)
  (tVerify tUpdate tClear exp : Date) (w : World) (u : User) :
  online w = true ->
  find (matches (ByEmail (rp_email d))) (rows w) = Some u ->
  resetOTP u = Some (rp_otp d) -> rp_otp d <> "" ->
  otpExpiresAt u = Some exp -> tVerify <= exp ->
  let u1 := written [Fpassword (Some (bcrypt_hash (rp_newPassword d)));
                     FpasswordUpdatedAt (Some tUpdate)] tUpdate u in
  let t1 := update_first (matches (ByEmail (rp_email d))) (fun _ => u1)
              (rows w) in
  let u2 := written [FresetOTP None; FotpCreatedAt None; FotpExpiresAt None]
              tClear u1 in
  let t2 := update_first (matches (ByEmail (rp_email d))) (fun _ => u2) t1 in
  resetPassword d tVerify tUpdate tClear w
  = (Ok (authSuccess RESPONSE_MESSAGES.PASSWORD_RESET_SUCCESS u1
           (or_default (provider u1) "local")),
     commit t2 (commit t1 w))
  /\ find (matches (ByEmail (rp_email d))) t2 = Some u2.
Proof.
  intros Hon Hf Hc Hne He Hle u1 t1 u2 t2.
  assert (Hm : matches (ByEmail (rp_email d)) u = true)
    by now apply find_In in Hf.
  assert (Hf1 : find (matches (ByEmail (rp_email d))) t1 = Some u1).
  { apply (find_update_first _ u); [exact Hf|]. simpl in *.
    unfold u1. now rewrite email_written. }
  split.
  - unfold resetPassword, try_catch, bind.
    rewrite (verifyOTP_valid _ (rp_otp d) tVerify exp w u) by assumption.
    cbn [outcome_result OTPVerificationResult.valid negb]. cbv zeta.
    unfold updatePassword, clearOTP, try_catch, bind.
    rewrite (prisma_update_same_key _ _ tUpdate w u Hon Hf).
    2:{ unfold written. now destruct (updatedAt_auto && _). }
    fold u1 t1. unfold ret at 1.
    rewrite (prisma_update_same_key _ _ tClear (commit t1 w) u1 Hon Hf1).
    2:{ unfold written. now destruct (updatedAt_auto && _). }
    reflexivity.
  - apply (find_update_first _ u1); [exact Hf1|]. simpl in *.
    unfold u2, u1. now rewrite !email_written.
Qed.

Lemma forgotPassword_run (e : string) (r : Z) (dateNow newDate : Date)
  (w : World) (u : User) :
  online w = true ->
  find (matches (ByEmail e)) (rows w) = Some u ->
  (forall o, exists messageId, sendMail o = Ok messageId) ->
  let u' := written [FresetOTP (Some (toString r));
                     FotpCreatedAt (Some newDate);
                     FotpExpiresAt (Some (dateNow + OTP_WINDOW))] newDate u in
  forgotPassword e r dateNow newDate w
  = (Ok otp_sent,
     commit (update_first (matches (ByEmail e)) (fun _ => u') (rows w)) w).
Proof.
  intros Hon Hf Hmail u'.
  unfold forgotPassword, findByEmail, try_catch at 1 2, bind at 1,
    prisma_findUnique.
  rewrite Hon, Hf. unfold sendOTPEmail.
  destruct (Hmail {| to := e; subject := "Password Reset - OTP Verification";
                     text := generatePlainTextEmail (name u) (generateOTP r) |})
    as [mid ->].
  cbn [EmailResult.otp EmailResult.success andb].
  unfold generateOTP. rewrite toString_nonempty.
  unfold bind.
  now rewrite (storeOTP_run e (toString r) dateNow newDate w u Hon Hf).
Qed.

(** X6. The reset flow composes. After a delivered forgotPassword for an
    existing account, resetPassword with the code that was drawn, run no
    later than ten minutes after the instant storeOTP read with
    [Date.now()], succeeds; the account then holds the hash of the new
    password and no challenge. *)
Theorem forgot_then_reset (e newPassword : string) (r : Z)
  (dateNow newDate tVerify tUpdate tClear : Date) (w : World) (u : User) :
  online w = true ->
  find (matches (ByEmail e)) (rows w) = Some u ->
  (forall o, exists messageId, sendMail o = Ok messageId) ->
  tVerify <= dateNow + 10 * 60 * 1000 ->
  let w1 := snd (forgotPassword e r dateNow newDate w) in
  let d := {| rp_email := e; rp_otp := generateOTP r;
              rp_newPassword := newPassword |} in
  exists resp u2,
    fst (resetPassword d tVerify tUpdate tClear w1) = Ok resp
    /\ success resp = true
    /\ message resp = RESPONSE_MESSAGES.PASSWORD_RESET_SUCCESS
    /\ find (matches (ByEmail e))
         (rows (snd (resetPassword d tVerify tUpdate tClear w1))) = Some u2
    /\ password u2 = Some (bcrypt_hash newPassword)
    /\ passwordUpdatedAt u2 = Some tUpdate
    /\ resetOTP u2 = None /\ otpCreatedAt u2 = None /\ otpExpiresAt u2 = None
    /\ id u2 = id u.
Proof.
  intros Hon Hf Hmail Hle w1 d.
  unfold w1.
  rewrite (forgotPassword_run e r dateNow newDate w u Hon Hf Hmail).
  cbn [snd].
  set (u' := written _ newDate u).
  set (wa := commit _ w).
  assert (Hfa : find (matches (ByEmail (rp_email d))) (rows wa) = Some u').
  { apply (find_update_first _ u); [exact Hf|].
    apply find_In in Hf as [_ Hm]. simpl in *. unfold u'.
    now rewrite email_written. }
  destruct (resetPassword_run d tVerify tUpdate tClear (dateNow + OTP_WINDOW)
              wa u') as [Hrun Hfind]; try assumption.
  - unfold u', written. now destruct (updatedAt_auto && _).
  - unfold d, generateOTP. cbn [rp_otp]. apply truthy_true.
    apply toString_nonempty.
  - unfold u', written. now destruct (updatedAt_auto && _).
  - rewrite Hrun. cbn [fst snd rows commit].
    eexists. eexists. split; [reflexivity|].
    split; [reflexivity|]. split; [reflexivity|].
    split; [exact Hfind|].
    unfold u', written.
    destruct (updatedAt_auto && _); simpl;
      try destruct (updatedAt_auto && _); simpl; repeat split.
Qed.

(** X7. A reset code is single use. Once resetPassword has succeeded for
    an account, any further resetPassword for the same e-mail, whatever
    code and password it carries, is refused with "No OTP found" and
    changes nothing, until a new code is requested. *)
Theorem reset_code_single_use (d d' : ResetPasswordRequest)
  (tVerify tUpdate tClear exp t1' t2' t3' : Date) (w : World) (u : User) :
  online w = true ->
  find (matches (ByEmail (rp_email d))) (rows w) = Some u ->
  resetOTP u = Some (rp_otp d) -> rp_otp d <> "" ->
  otpExpiresAt u = Some exp -> tVerify <= exp ->
  rp_email d' = rp_email d ->
  let w' := snd (resetPassword d tVerify tUpdate tClear w) in
  resetPassword d' t1' t2' t3' w'
  = (Ok (failure "No OTP found. Please request a new one."), w').
Proof.
  intros Hon Hf Hc Hne He Hle Hmail w'.
  destruct (resetPassword_run d tVerify tUpdate tClear exp w u)
    as [Hrun Hfind]; try assumption.
  cbv zeta in Hrun, Hfind. unfold w'. rewrite Hrun. cbn [snd].
  set (wf := commit _ (commit _ w)) in *.
  apply (resetPassword_rejected d' t1' t2' t3' wf (outcome_result NoChallenge));
    [|reflexivity].
  unfold verifyOTP, try_catch, bind, prisma_findUnique.
  rewrite Hmail. cbn [online wf commit rows]. rewrite Hon.
  cbn [rows commit] in Hfind. rewrite Hfind.
  unfold written.
  destruct (updatedAt_auto && _); reflexivity.
Qed.

End ResetFlow.

Lemma forgot_then_reset_witness :
  exists resp u2,
    fst (resetPassword (C:=demo)
           {| rp_email := "a@x.com"; rp_otp := "424242";
              rp_newPassword := "secret2" |} 2500 2600 2700
           (snd (forgotPassword (C:=demo) "a@x.com" 424242 2000 2001 world0)))
    = Ok resp
    /\ success resp = true
    /\ find (matches (ByEmail "a@x.com"))
         (rows (snd (resetPassword (C:=demo)
                       {| rp_email := "a@x.com"; rp_otp := "424242";
                          rp_newPassword := "secret2" |} 2500 2600 2700
                       (snd (forgotPassword (C:=demo) "a@x.com" 424242 2000
                               2001 world0))))) = Some u2
    /\ password u2 = Some "$2a$10$secret2" /\ resetOTP u2 = None.
Proof.
  destruct (forgot_then_reset (C:=demo) "a@x.com" "secret2" 424242
              2000 2001 2500 2600 2700 world0 alice)
    as [resp [u2 [H1 [H2 [_ [H3 [H4 [_ [H5 _]]]]]]]]].
  - reflexivity.
  - reflexivity.
  - intros o. exists "msg-1". reflexivity.
  - simpl. lia.
  - exists resp, u2. repeat split; assumption.
Defined.

Lemma reset_code_single_use_witness :
  resetPassword (C:=demo)
    {| rp_email := "a@x.com"; rp_otp := "123456";
       rp_newPassword := "secret3" |} 1300 1400 1500
    (snd (resetPassword (C:=demo)
            {| rp_email := "a@x.com"; rp_otp := "123456";
               rp_newPassword := "secret2" |} 1000 1100 1200 world0))
  = (Ok (failure "No OTP found. Please request a new one."),
     snd (resetPassword (C:=demo)
            {| rp_email := "a@x.com"; rp_otp := "123456";
               rp_newPassword := "secret2" |} 1000 1100 1200 world0)).
Proof.
  apply (reset_code_single_use (C:=demo)
           {| rp_email := "a@x.com"; rp_otp := "123456";
              rp_newPassword := "secret2" |}
           {| rp_email := "a@x.com"; rp_otp := "123456";
              rp_newPassword := "secret3" |}
           1000 1100 1200 600000 1300 1400 1500 world0 alice).
  - reflexivity.
  - reflexivity.
  - reflexivity.
  - discriminate.
  - reflexivity.
  - simpl. lia.
  - reflexivity.
Defined.

(** ** Lists of rows *)

Lemma find_split (sel : User -> bool) (l : list User) (u : User) :
  find sel l = Some u ->
  exists l1 l2,
    l = (l1 ++ u :: l2)%list
    /\ remove_first sel l = (l1 ++ l2)%list
    /\ forall g, update_first sel g l = (l1 ++ g u :: l2)%list.
Proof.
  induction l as [|r rs IH]; simpl; [discriminate|].
  destruct (sel r) eqn:E.
  - intros H. injection H as ->. exists [], rs. repeat split.
  - intros H. destruct (IH H) as [l1 [l2 [H1 [H2 H3]]]].
    exists (r :: l1), l2. simpl. rewrite <- H1, H2. repeat split.
    intros g. now rewrite H3.
Qed.

Lemma NoDup_insert_middle {A} (a b : list A) (x : A) :
  NoDup (a ++ b) -> ~ In x (a ++ b) -> NoDup (a ++ x :: b).
Proof.
  induction a as [|y a IH]; simpl; intros Hnd Hin.
  - now constructor.
  - inversion Hnd as [|? ? Hy Hnd']; subst. constructor.
    + rewrite in_app_iff in *. simpl. intuition.
    + apply IH; [assumption|]. intuition.
Qed.

(** ** UserRepository: create, updateProfile, deleteUser *)

Lemma find_remove_first_by_id (i : Z) (l : list User) :
  NoDup (map id l) ->
  find (matches (ById i)) (remove_first (matches (ById i)) l) = None.
Proof.
  induction l as [|r rs IH]; simpl; [reflexivity|].
  intros Hnd. inversion Hnd as [|? ? Hnotin Hnd']; subst.
  destruct (id r =? i) eqn:E.
  - apply Z.eqb_eq in E. subst i.
    destruct (find (matches (ById (id r))) rs) as [q|] eqn:Hq; [|reflexivity].
    exfalso. apply find_In in Hq as [Hin Hm]. simpl in Hm.
    apply Z.eqb_eq in Hm. apply Hnotin. rewrite <- Hm. now apply in_map.
  - simpl. rewrite E. now apply IH.
Qed.

Lemma length_remove_first (sel : User -> bool) (l : list User) (u : User) :
  find sel l = Some u ->
  S (List.length (remove_first sel l)) = List.length l.
Proof.
  induction l as [|r rs IH]; simpl; [discriminate|].
  destruct (sel r); [reflexivity|]. intros H. simpl. now rewrite IH.
Qed.

Section Repository.

Context {C : Collaborators}.

(** X9. create reports every unique-constraint violation as a duplicate
    e-mail: when the e-mail or the Google id of the new row is taken, it
    throws "A user with this email already exists" and writes nothing. *)
Theorem create_conflict (userData : CreateUserData) (now : Date) (w : World) :
  online w = true ->
  email_taken (cu_email userData) (rows w) = true
  \/ googleId_taken (or_null (cu_googleId userData)) (rows w) = true ->
  create userData now w
  = (Throw (JsError "A user with this email already exists"), w).
Proof.
  intros Hon H. unfold create, try_catch, prisma_create.
  cbn [c_email c_googleId]. rewrite Hon.
  replace (email_taken (cu_email userData) (rows w)
           || googleId_taken (or_null (cu_googleId userData)) (rows w))
    with true; [reflexivity|].
  symmetry. apply orb_true_iff. exact H.
Qed.


(** X11. deleteUser removes exactly the row of the id. With ids unique, a
    delete of an existing id answers true, the id is no longer found and
    the table is one row shorter; a delete of an unknown id answers false
    and writes nothing. *)
Theorem deleteUser_removes (i : Z) (w : World) :
  online w = true -> NoDup (map id (rows w)) ->
  match find (matches (ById i)) (rows w) with
  | None => deleteUser i w = (Ok false, w)
  | Some u =>
      fst (deleteUser i w) = Ok true
      /\ fst (findById i (snd (deleteUser i w))) = Ok None
      /\ S (List.length (rows (snd (deleteUser i w)))) = List.length (rows w)
  end.
Proof.
  intros Hon Hnd. unfold deleteUser, try_catch, bind, prisma_delete.
  rewrite Hon.
  destruct (find (matches (ById i)) (rows w)) as [u|] eqn:Hf;
    [|reflexivity].
  cbn [fst snd ret]. repeat split.
  - unfold findById, try_catch, prisma_findUnique. cbn [online commit rows].
    rewrite Hon. cbn [fst]. now rewrite find_remove_first_by_id.
  - cbn [rows commit]. now apply (length_remove_first _ _ u).
Qed.

End Repository.

Lemma create_conflict_witness :
  create
    {| cu_name := "Gina Two"; cu_email := "g2@x.com"; cu_password := None;
       cu_googleId := Some "g2"; cu_provider := Some "google";
       cu_profilePicture := None; cu_emailVerified := Some true |} 50 world0
  = (Throw (JsError "A user with this email already exists"), world0).
Proof.
  apply create_conflict.
  - reflexivity.
  - right. reflexivity.
Defined.


Lemma deleteUser_removes_witness :
  fst (deleteUser 2 world0) = Ok true
  /\ fst (findById 2 (snd (deleteUser 2 world0))) = Ok None
  /\ S (List.length (rows (snd (deleteUser 2 world0))))
     = List.length (rows world0).
Proof.
  pose proof (deleteUser_removes 2 world0 eq_refl) as H.
  cbn [find matches rows world0 id alice gina Z.eqb Pos.eqb] in H.
  apply H. repeat constructor; simpl; intuition discriminate.
Defined.

(** ** Resolving the same Google assertion again *)

Lemma existsb_find {A} (p : A -> bool) (l : list A) :
  existsb p l = true -> exists a, find p l = Some a.
Proof.
  induction l as [|x l IH]; simpl; [discriminate|].
  destruct (p x); [eauto | exact IH].
Qed.

Lemma find_existsb {A} (p : A -> bool) (l : list A) (a : A) :
  find p l = Some a -> existsb p l = true.
Proof.
  intros H. apply find_In in H as [Hin Hp]. apply existsb_exists. eauto.
Qed.

Lemma find_by_id_of_member (u : User) (l : list User) :
  In u l -> exists u0, find (matches (ById (id u))) l = Some u0.
Proof.
  intros Hin. apply existsb_find. apply existsb_exists. exists u.
  split; [assumption|]. simpl. apply Z.eqb_refl.
Qed.

Lemma existsb_update_first (sel sel' : User -> bool) (g : User -> User)
  (l : list User) :
  (forall r, sel r = true -> sel (g r) = true) ->
  existsb sel l = true -> existsb sel (update_first sel' g l) = true.
Proof.
  intros Hg. induction l as [|r rs IH]; simpl; [discriminate|].
  intros H. destruct (sel' r); simpl.
  - apply orb_true_iff in H as [H|H]; [rewrite (Hg r H) | rewrite H];
      [reflexivity | apply orb_true_r].
  - apply orb_true_iff in H as [H|H]; [now rewrite H|].
    rewrite (IH H). apply orb_true_r.
Qed.

Lemma existsb_update_first_new (sel sel' : User -> bool) (g : User -> User)
  (l : list User) (u0 : User) :
  find sel' l = Some u0 -> sel (g u0) = true ->
  existsb sel (update_first sel' g l) = true.
Proof.
  intros Hf Hs. destruct (find_split _ _ _ Hf) as [l1 [l2 [_ [_ Hupd]]]].
  rewrite Hupd, existsb_app. simpl. rewrite Hs. simpl. apply orb_true_r.
Qed.

Section Idempotence.

Context {C : Collaborators}.

Lemma googleId_written_link (profile : GoogleProfile.t) (extra : list Field)
  (now : Date) (u : User) :
  (forall r, googleId (apply_data extra r) = googleId r) ->
  googleId (written (link_data profile ++ extra) now u)
  = Some (GoogleProfile.id profile).
Proof.
  intros Hx. unfold written, apply_data. rewrite !fold_left_app.
  fold (apply_data extra). destruct (updatedAt_auto && _); now rewrite Hx.
Qed.

(** The three ways the callback leaves the table untouched. *)
Lemma googleStrategyVerify_inert (clientId clientSecret : option string)
  (profile : GoogleProfile.t) (now : Date) (w : World) :
  online w = false
  \/ truthy_opt clientId = false \/ truthy_opt clientSecret = false
  \/ truthy_opt (first_value (GoogleProfile.emails profile)) = false
  \/ truthy (GoogleProfile.id profile) = false ->
  snd (googleStrategyVerify clientId clientSecret profile now w) = w.
Proof.
  intros H. unfold googleStrategyVerify.
  destruct (truthy_opt clientId) eqn:E1; [|reflexivity].
  destruct (truthy_opt clientSecret) eqn:E2; [|reflexivity].
  cbn [negb orb]. unfold try_catch.
  destruct (first_value (GoogleProfile.emails profile)) as [e|];
    [|reflexivity].
  cbn [truthy_opt] in H.
  destruct (truthy e) eqn:E3; [|reflexivity].
  destruct (truthy (GoogleProfile.id profile)) eqn:E4; [|reflexivity].
  cbn [negb orb]. destruct H as [H|[H|[H|[H|H]]]]; try discriminate.
  unfold bind, prisma_findUnique. now rewrite H.
Qed.

Lemma googleStrategyVerify_after (clientId clientSecret : option string)
  (profile : GoogleProfile.t) (now : Date) (w : World) (e : string) :
  online w = true ->
  truthy_opt clientId = true -> truthy_opt clientSecret = true ->
  first_value (GoogleProfile.emails profile) = Some e -> truthy e = true ->
  truthy (GoogleProfile.id profile) = true ->
  let w' := snd (googleStrategyVerify clientId clientSecret profile now w) in
  online w' = true
  /\ existsb (matches (ByGoogleId (GoogleProfile.id profile))) (rows w')
     = true
  /\ (List.length (rows w') = List.length (rows w)
      \/ (find (matches (ByGoogleId (GoogleProfile.id profile))) (rows w)
          = None
          /\ find (matches (ByEmail e)) (rows w) = None
          /\ List.length (rows w') = S (List.length (rows w)))).
Proof.
  intros Hon Hcid Hcs He Hne Hgid w'.
  assert (Hstart :
    googleStrategyVerify clientId clientSecret profile now w
    = try_catch
        (user <- prisma_findUnique (ByGoogleId (GoogleProfile.id profile)) ;;
         match user with
         | Some user =>
             user <- prisma_update (ById (id user))
                       (refresh_data profile now) now ;;
             ret {| done_error := None;
                    done_user := mapDbUserToExpressUser user |}
         | None =>
             user <- prisma_findUnique (ByEmail e) ;;
             match user with
             | Some user =>
                 user <- prisma_update (ById (id user))
                           (link_data profile ++ [FupdatedAt now]) now ;;
                 ret {| done_error := None;
                        done_user := mapDbUserToExpressUser user |}
             | None =>
                 user <- prisma_create
                           {| c_name := GoogleProfile.displayName profile;
                              c_email := e;
                              c_password := None;
                              c_googleId := Some (GoogleProfile.id profile);
                              c_provider := "google";
                              c_profilePicture :=
                                or_null
                                  (first_value (GoogleProfile.photos profile));
                              c_emailVerified := true |} now ;;
                 ret {| done_error := None;
                        done_user := mapDbUserToExpressUser user |}
             end
         end)
        (fun error => ret {| done_error := Some error; done_user := None |})
        w).
  { unfold googleStrategyVerify. rewrite Hcid, Hcs. cbn [negb orb].
    cbv zeta. unfold try_catch at 1 2. rewrite He, Hne, Hgid. reflexivity. }
  unfold w'. rewrite Hstart. clear Hstart w'.
  match goal with
  | |- context [snd ?t] => remember t as run eqn:Hrun
  end.
  unfold try_catch, bind at 1 in Hrun.
  unfold prisma_findUnique at 1 in Hrun. rewrite Hon in Hrun.
  destruct (find (matches (ByGoogleId _)) (rows w)) as [u|] eqn:Hg.
  - destruct (find_by_id_of_member u (rows w)) as [u0 Hu0];
      [now apply find_In in Hg|].
    unfold bind in Hrun.
    rewrite (prisma_update_same_key (ById (id u)) _ now w u0 Hon Hu0)
      in Hrun.
    2:{ unfold written. now destruct (updatedAt_auto && _). }
    subst run. cbn [snd rows commit online ret]. split; [exact Hon|]. split.
    + rewrite (update_first_const (matches (ById (id u)))
                 (written (refresh_data profile now) now) u0 (rows w) Hu0).
      apply existsb_update_first; [|now apply (find_existsb _ _ u)].
      intros r Hr. simpl in *. unfold written.
      now destruct (updatedAt_auto && _).
    + left. apply length_update_first.
  - unfold bind at 1 in Hrun. unfold prisma_findUnique at 1 in Hrun.
    rewrite Hon in Hrun.
    destruct (find (matches (ByEmail e)) (rows w)) as [u|] eqn:Hm.
    + destruct (find_by_id_of_member u (rows w)) as [u0 Hu0];
        [now apply find_In in Hm|].
      unfold bind in Hrun.
      assert (Hk : googleId (written (link_data profile ++ [FupdatedAt now])
                               now u0)
                   = Some (GoogleProfile.id profile))
        by now apply googleId_written_link.
      rewrite (prisma_update_ok (ById (id u))
                 (link_data profile ++ [FupdatedAt now]) now w u0 Hon Hu0)
        in Hrun.
      2:{ rewrite Hk. now rewrite googleId_free. }
      subst run. cbn [snd rows commit online ret].
      split; [exact Hon|]. split.
      * apply (existsb_update_first_new _ _ _ _ u0 Hu0).
        cbv beta. unfold matches. rewrite Hk. apply opt_string_eqb_refl.
      * left. apply length_update_first.
    + unfold bind, prisma_create in Hrun. cbn [c_email c_googleId] in Hrun.
      rewrite Hon, (email_free _ _ Hm) in Hrun.
      replace (googleId_taken (Some (GoogleProfile.id profile)) (rows w))
        with false in Hrun
        by (symmetry; now apply find_none_existsb in Hg).
      cbn [orb] in Hrun. subst run. cbn [snd rows online ret].
      split; [reflexivity|]. split.
      * rewrite existsb_app. simpl. rewrite String.eqb_refl.
        simpl. apply orb_true_r.
      * right. repeat split. rewrite length_app. simpl. lia.
Qed.

(** X12. The verify callback adds at most one row per assertion: for
    every store, configuration and profile, running it a second time with
    the same profile leaves the number of rows as the first run left it
    (the second run finds the account by Google id). *)
Theorem googleStrategyVerify_idempotent_rows
  (clientId clientSecret : option string) (profile : GoogleProfile.t)
  (t1 t2 : Date) (w : World) :
  List.length
    (rows (snd (googleStrategyVerify clientId clientSecret profile t2
                  (snd (googleStrategyVerify clientId clientSecret profile t1
                          w)))))
  = List.length
      (rows (snd (googleStrategyVerify clientId clientSecret profile t1 w))).
Proof.
  assert (Hinert :
    online w = false
    \/ truthy_opt clientId = false \/ truthy_opt clientSecret = false
    \/ truthy_opt (first_value (GoogleProfile.emails profile)) = false
    \/ truthy (GoogleProfile.id profile) = false ->
    List.length
      (rows (snd (googleStrategyVerify clientId clientSecret profile t2
                    (snd (googleStrategyVerify clientId clientSecret profile
                            t1 w)))))
    = List.length
        (rows (snd (googleStrategyVerify clientId clientSecret profile t1
                      w)))).
  { intros H.
    rewrite (googleStrategyVerify_inert clientId clientSecret profile t1 w H).
    now rewrite (googleStrategyVerify_inert clientId clientSecret profile t2
                   w H). }
  destruct (online w) eqn:Hon; [|apply Hinert; tauto].
  destruct (truthy_opt clientId) eqn:Hcid; [|apply Hinert; tauto].
  destruct (truthy_opt clientSecret) eqn:Hcs; [|apply Hinert; tauto].
  destruct (truthy_opt (first_value (GoogleProfile.emails profile))) eqn:He;
    [|apply Hinert; tauto].
  destruct (truthy (GoogleProfile.id profile)) eqn:Hgid;
    [|apply Hinert; tauto].
  clear Hinert.
  destruct (first_value (GoogleProfile.emails profile)) as [e|] eqn:Hfe;
    [|discriminate].
  cbn [truthy_opt] in He.
  destruct (googleStrategyVerify_after clientId clientSecret profile t1 w e)
    as [Hon1 [Hex1 _]]; try assumption.
  set (w1 := snd (googleStrategyVerify clientId clientSecret profile t1 w))
    in *.
  destruct (googleStrategyVerify_after clientId clientSecret profile t2 w1 e)
    as [_ [_ [Hlen|[Hnone _]]]]; try assumption.
  apply find_none_existsb in Hnone. congruence.
Qed.

Lemma findOrCreateGoogleUser_after (profile : GoogleProfile.t) (now : Date)
  (w : World) (e : string) :
  online w = true ->
  first_value (GoogleProfile.emails profile) = Some e -> truthy e = true ->
  truthy (GoogleProfile.id profile) = true ->
  let w' := snd (findOrCreateGoogleUser profile now w) in
  online w' = true
  /\ existsb (matches (ByGoogleId (GoogleProfile.id profile))) (rows w')
     = true.
Proof.
  intros Hon He Hne Hgid w'.
  assert (Hstart :
    findOrCreateGoogleUser profile now w
    = try_catch
        (user <- prisma_findUnique (ByGoogleId (GoogleProfile.id profile)) ;;
         user <- match user with
                 | Some user => ret user
                 | None =>
                     user <- prisma_findUnique (ByEmail e) ;;
                     match user with
                     | Some user =>
                         prisma_update (ById (id user))
                           (link_data profile ++ []) now
                     | None =>
                         prisma_create
                           {| c_name := GoogleProfile.displayName profile;
                              c_email := e;
                              c_password := None;
                              c_googleId := Some (GoogleProfile.id profile);
                              c_provider := "google";
                              c_profilePicture :=
                                or_null
                                  (first_value (GoogleProfile.photos profile));
                              c_emailVerified := true |} now
                     end
                 end ;;
         ret (mapDbUserToExpressUser user))
        (fun error => throw error) w).
  { unfold findOrCreateGoogleUser. now rewrite He, Hne, Hgid. }
  unfold w'. rewrite Hstart. clear Hstart w'.
  match goal with
  | |- context [snd ?t] => remember t as run eqn:Hrun
  end.
  unfold try_catch, bind at 1 in Hrun.
  unfold prisma_findUnique at 1 in Hrun. rewrite Hon in Hrun.
  destruct (find (matches (ByGoogleId _)) (rows w)) as [u|] eqn:Hg.
  - cbn in Hrun. subst run. cbn [snd].
    split; [exact Hon | now apply (find_existsb _ _ u)].
  - unfold bind at 1 2 in Hrun. unfold prisma_findUnique at 1 in Hrun.
    rewrite Hon in Hrun.
    destruct (find (matches (ByEmail e)) (rows w)) as [u|] eqn:Hm.
    + destruct (find_by_id_of_member u (rows w)) as [u0 Hu0];
        [now apply find_In in Hm|].
      assert (Hk : googleId (written (link_data profile ++ []) now u0)
                   = Some (GoogleProfile.id profile))
        by now apply googleId_written_link.
      rewrite (prisma_update_ok (ById (id u)) (link_data profile ++ [])
                 now w u0 Hon Hu0) in Hrun.
      2:{ rewrite Hk. now rewrite googleId_free. }
      subst run. cbn [snd rows commit online ret]. split; [exact Hon|].
      apply (existsb_update_first_new _ _ _ _ u0 Hu0).
      cbv beta. unfold matches. rewrite Hk. apply opt_string_eqb_refl.
    + unfold prisma_create in Hrun. cbn [c_email c_googleId] in Hrun.
      rewrite Hon, (email_free _ _ Hm) in Hrun.
      replace (googleId_taken (Some (GoogleProfile.id profile)) (rows w))
        with false in Hrun
        by (symmetry; now apply find_none_existsb in Hg).
      cbn [orb] in Hrun. subst run. cbn [snd rows online ret].
      split; [reflexivity|].
      rewrite existsb_app. simpl. rewrite String.eqb_refl.
      simpl. apply orb_true_r.
Qed.

(** X13. findOrCreateGoogleUser is idempotent on the store: for every
    store and profile, a second call with the same profile writes nothing;
    the world after two calls is the world after one. *)
Theorem findOrCreateGoogleUser_idempotent (profile : GoogleProfile.t)
  (t1 t2 : Date) (w : World) :
  snd (findOrCreateGoogleUser profile t2
         (snd (findOrCreateGoogleUser profile t1 w)))
  = snd (findOrCreateGoogleUser profile t1 w).
Proof.
  destruct (first_value (GoogleProfile.emails profile)) as [e|] eqn:Hfe.
  2:{ unfold findOrCreateGoogleUser. now rewrite Hfe. }
  destruct (truthy e) eqn:He.
  2:{ unfold findOrCreateGoogleUser. now rewrite Hfe, He. }
  destruct (truthy (GoogleProfile.id profile)) eqn:Hgid.
  2:{ unfold findOrCreateGoogleUser. now rewrite Hfe, He, Hgid. }
  destruct (online w) eqn:Hon.
  - destruct (findOrCreateGoogleUser_after profile t1 w e)
      as [Hon1 Hex1]; try assumption.
    set (w1 := snd (findOrCreateGoogleUser profile t1 w)) in *.
    destruct (existsb_find _ _ Hex1) as [u Hu].
    apply truthy_true in He, Hgid.
    now rewrite (findOrCreateGoogleUser_found profile e t2 w1 u).
  - assert (H1 : snd (findOrCreateGoogleUser profile t1 w) = w).
    { unfold findOrCreateGoogleUser. rewrite Hfe, He, Hgid. cbn [negb orb].
      unfold try_catch, bind, prisma_findUnique. now rewrite Hon. }
    rewrite H1. unfold findOrCreateGoogleUser. rewrite Hfe, He, Hgid.
    cbn [negb orb]. unfold try_catch, bind, prisma_findUnique.
    now rewrite Hon.
Qed.

End Idempotence.

Section Federated.

Context {C : Collaborators}.

(** X14. An account created by the verify callback has no password, and
    the password login says so: after step 3 has created the account, a
    login with its e-mail and any password is refused with "Please sign in
    using Google OAuth" and writes nothing. *)
Theorem created_google_account_has_no_password_login
  (clientId clientSecret : option string) (profile : GoogleProfile.t)
  (e p : string) (now : Date) (w : World) :
  online w = true ->
  truthy_opt clientId = true -> truthy_opt clientSecret = true ->
  first_value (GoogleProfile.emails profile) = Some e -> e <> "" ->
  GoogleProfile.id profile <> "" ->
  find (matches (ByGoogleId (GoogleProfile.id profile))) (rows w) = None ->
  find (matches (ByEmail e)) (rows w) = None ->
  let w' := snd (googleStrategyVerify clientId clientSecret profile now w) in
  (exists u, rows w' = (rows w ++ [u])%list
             /\ email u = e /\ password u = None
             /\ googleId u = Some (GoogleProfile.id profile)
             /\ provider u = Some "google" /\ emailVerified u = true
             /\ id u = nextId w)
  /\ login e p w' = (Ok (failure "Please sign in using Google OAuth"), w').
Proof.
  intros Hon Hcid Hcs He Hne Hgid Hg Hm w'.
  apply truthy_true in Hne, Hgid.
  assert (Hrun : w' = {| rows := (rows w ++
      [{| id := nextId w; name := GoogleProfile.displayName profile;
          email := e; password := None;
          googleId := Some (GoogleProfile.id profile);
          provider := Some "google";
          profilePicture :=
            or_null (first_value (GoogleProfile.photos profile));
          emailVerified := true; resetOTP := None; otpCreatedAt := None;
          otpExpiresAt := None; passwordUpdatedAt := None;
          createdAt := now; updatedAt := now |}])%list;
      nextId := nextId w + 1; online := true;
      commits := (commits w ++ [rows w ++
      [{| id := nextId w; name := GoogleProfile.displayName profile;
          email := e; password := None;
          googleId := Some (GoogleProfile.id profile);
          provider := Some "google";
          profilePicture :=
            or_null (first_value (GoogleProfile.photos profile));
          emailVerified := true; resetOTP := None; otpCreatedAt := None;
          otpExpiresAt := None; passwordUpdatedAt := None;
          createdAt := now; updatedAt := now |}]])%list |}).
  { unfold w', googleStrategyVerify. rewrite Hcid, Hcs. cbn [negb orb].
    cbv zeta. unfold try_catch. rewrite He, Hne, Hgid. cbn [negb orb].
    unfold bind at 1. unfold prisma_findUnique at 1. rewrite Hon, Hg.
    unfold bind at 1. unfold prisma_findUnique at 1. rewrite Hon, Hm.
    unfold bind, prisma_create. cbn [c_email c_googleId].
    rewrite Hon, (email_free _ _ Hm).
    replace (googleId_taken (Some (GoogleProfile.id profile)) (rows w))
      with false
      by (symmetry; now apply find_none_existsb in Hg).
    reflexivity. }
  rewrite Hrun. cbn [rows]. split.
  - eexists. repeat split.
  - unfold login, findByEmail, try_catch, bind, prisma_findUnique.
    cbn [online rows]. rewrite (find_app_none _ _ _ Hm).
    cbn [find matches email]. now rewrite String.eqb_refl.
Qed.

End Federated.

Lemma created_google_account_has_no_password_login_witness :
  login (C:=demo) "n@x.com" "anything"
    (snd (googleStrategyVerify (C:=demo) (Some "client") (Some "secret")
            (profile_of "g9" (Some "n@x.com") "Nora") 2000 world0))
  = (Ok (failure "Please sign in using Google OAuth"),
     snd (googleStrategyVerify (C:=demo) (Some "client") (Some "secret")
            (profile_of "g9" (Some "n@x.com") "Nora") 2000 world0)).
Proof.
  apply (created_google_account_has_no_password_login (C:=demo)
           (Some "client") (Some "secret")
           (profile_of "g9" (Some "n@x.com") "Nora") "n@x.com" "anything"
           2000 world0); try reflexivity; discriminate.
Defined.

(** ** Session callbacks *)

(** X15. serializeUser and deserializeUser round-trip. With ids unique,
    the user that mapDbUserToExpressUser makes of a stored row is
    identified by its id alone: deserializing the serialized user returns
    it, without error and without touching the store. *)
Theorem deserialize_serialize (u : User) (eu : ExpressUser) (w : World) :
  online w = true -> NoDup (map id (rows w)) -> In u (rows w) ->
  mapDbUserToExpressUser u = Some eu ->
  deserializeUser (serializeUser eu) w
  = (Ok {| done_error := None; done_user := Some eu |}, w).
Proof.
  intros Hon Hnd Hin Hmap.
  assert (Hid : serializeUser eu = id u).
  { unfold mapDbUserToExpressUser in Hmap. injection Hmap as <-.
    reflexivity. }
  rewrite Hid. unfold deserializeUser, try_catch, bind, prisma_findUnique.
  rewrite Hon.
  destruct (find_by_id_of_member u (rows w) Hin) as [u0 Hu0].
  rewrite Hu0.
  assert (u0 = u).
  { apply find_In in Hu0 as [Hin0 Hm]. simpl in Hm. apply Z.eqb_eq in Hm.
    now apply (nodup_id_eq (rows w)). }
  subst u0. now rewrite Hmap.
Qed.

Lemma deserialize_serialize_witness :
  deserializeUser
    (serializeUser {| eu_id := 2; eu_email := "g@x.com"; eu_name := "Gina";
                      eu_provider := Some google |}) world0
  = (Ok {| done_error := None;
           done_user := Some {| eu_id := 2; eu_email := "g@x.com";
                                eu_name := "Gina";
                                eu_provider := Some google |} |}, world0).
Proof.
  apply (deserialize_serialize gina).
  - reflexivity.
  - repeat constructor; simpl; intuition discriminate.
  - right. left. reflexivity.
  - reflexivity.
Defined.

(** ** helpers/authHelpers.ts *)

(** X16. isOTPExpired and verifyOTP agree on expiry. For an account with
    a stored code, verifyOTP reports "OTP has expired" exactly when
    isOTPExpired answers true for the stored expiry at the same instant;
    a missing expiry counts as expired in both. *)
Theorem isOTPExpired_agrees_with_verifyOTP (e otp : string) (now : Date)
  (w : World) (u : User) :
  online w = true ->
  find (matches (ByEmail e)) (rows w) = Some u ->
  truthy_opt (resetOTP u) = true ->
  (fst (verifyOTP e otp now w) = Ok (outcome_result Expired)
   <-> authHelpers.isOTPExpired (otpExpiresAt u) now = true).
Proof.
  intros Hon Hf Hc.
  unfold verifyOTP, try_catch, bind, prisma_findUnique, authHelpers.isOTPExpired.
  rewrite Hon, Hf, Hc. cbn [negb].
  destruct (otpExpiresAt u) as [x|]; [|split; reflexivity].
  destruct (x <? now); [split; reflexivity|].
  destruct (opt_string_eqb (resetOTP u) (Some otp)); simpl;
    split; discriminate.
Qed.

Lemma isOTPExpired_agrees_with_verifyOTP_witness :
  fst (verifyOTP "a@x.com" "123456" 600001 world0)
  = Ok (outcome_result Expired)
  <-> authHelpers.isOTPExpired (otpExpiresAt alice) 600001 = true.
Proof.
  apply (isOTPExpired_agrees_with_verifyOTP "a@x.com" "123456" 600001
           world0 alice); reflexivity.
Defined.

Lemma digit_at_digit (k : Z) :
  0 <= k < 10 -> authHelpers.digit_at k = String (digitChar k) "".
Proof.
  intros H. unfold authHelpers.digit_at.
  replace (0 <=? k) with true by (symmetry; apply Z.leb_le; lia).
  replace (k <? 10) with true by (symmetry; apply Z.ltb_lt; lia).
  reflexivity.
Qed.

Lemma generateOTP_loop_spec (n : nat) (draws : nat -> Z) (i : nat)
  (otp : string) :
  (forall j, 0 <= draws j < 10) ->
  String.length (authHelpers.generateOTP_loop n draws i otp)
  = (String.length otp + n)%nat
  /\ allDigits (authHelpers.generateOTP_loop n draws i otp) = allDigits otp.
Proof.
  intros Hd. revert i otp. induction n as [|n IH]; intros i otp; simpl.
  - split; [lia | reflexivity].
  - destruct (IH (S i) (otp ++ authHelpers.digit_at (draws i))) as [H1 H2].
    rewrite H1, H2, string_length_app, allDigits_app.
    rewrite digit_at_digit by apply Hd. cbn [String.length allDigits].
    rewrite isDigit_digitChar by apply Hd. split; [lia|].
    now rewrite !andb_true_r.
Qed.

(** X17. The helper generateOTP returns exactly [length] decimal digits
    for every non-negative length and every sequence of draws (each index
    Math.floor(Math.random() * 10) lies in 0..9), and the empty string for a
    length of zero or less. *)
Theorem helper_generateOTP_digits (length : Z) (draws : nat -> Z) :
  (forall j, 0 <= draws j < 10) ->
  Z.of_nat (String.length (authHelpers.generateOTP length draws))
  = Z.max 0 length
  /\ allDigits (authHelpers.generateOTP length draws) = true.
Proof.
  intros Hd. unfold authHelpers.generateOTP.
  destruct (generateOTP_loop_spec (Z.to_nat length) draws 0 "" Hd)
    as [H1 H2].
  rewrite H1, H2. split; [simpl; lia | reflexivity].
Qed.

Lemma helper_generateOTP_digits_witness :
  Z.of_nat (String.length (authHelpers.generateOTP 6 (fun _ => 0)))
  = Z.max 0 6
  /\ allDigits (authHelpers.generateOTP 6 (fun _ => 0)) = true.
Proof.
  apply (helper_generateOTP_digits 6 (fun _ => 0)). intros j. lia.
Defined.

(** X18. validatePasswordStrength counts five criteria: score plus the
    number of feedback lines is always 5, and the password is valid exactly
    when at most two feedback lines are returned. *)
Theorem validatePasswordStrength_score (p : string) :
  let r := authHelpers.validatePasswordStrength p in
  authHelpers.score r + Z.of_nat (List.length (authHelpers.feedback r)) = 5
  /\ 0 <= authHelpers.score r <= 5
  /\ (authHelpers.isValid r = true
      <-> (List.length (authHelpers.feedback r) <= 2)%nat).
Proof.
  unfold authHelpers.validatePasswordStrength, authHelpers.criteria.
  destruct (8 <=? String.length p)%nat, (authHelpers.test authHelpers.isUpper p),
    (authHelpers.test authHelpers.isLower p),
    (authHelpers.test authHelpers.isDecimal p),
    (authHelpers.test authHelpers.isSpecial p);
    cbn; (split; [reflexivity|]); (split; [lia|]);
    split; intros H; try reflexivity; try discriminate H; lia.
Qed.

Lemma lower_excludes (c : ascii) :
  authHelpers.isLower c = true ->
  authHelpers.isUpper c = false /\ authHelpers.isDecimal c = false
  /\ authHelpers.isSpecial c = false.
Proof.
  destruct c as [[] [] [] [] [] [] [] []]; vm_compute; intros H;
    try discriminate H; repeat split.
Qed.

Lemma test_none (cls good : ascii -> bool) (p : string) :
  (forall c, good c = true -> cls c = false) ->
  every good p = true -> authHelpers.test cls p = false.
Proof.
  intros Hx. induction p as [|c p IH]; simpl; [reflexivity|].
  intros H. apply andb_true_iff in H as [Hc Hp].
  now rewrite (Hx c Hc), IH.
Qed.

(** X19. A password made of lowercase letters only is never valid,
    however long it is: it meets at most the length and the lowercase
    criteria. *)
Theorem lowercase_password_invalid (p : string) :
  every authHelpers.isLower p = true ->
  authHelpers.isValid (authHelpers.validatePasswordStrength p) = false
  /\ authHelpers.score (authHelpers.validatePasswordStrength p) <= 2.
Proof.
  intros H.
  unfold authHelpers.validatePasswordStrength, authHelpers.criteria.
  rewrite (test_none authHelpers.isUpper authHelpers.isLower p),
    (test_none authHelpers.isDecimal authHelpers.isLower p),
    (test_none authHelpers.isSpecial authHelpers.isLower p);
    try assumption; try (intros c Hc; now apply lower_excludes in Hc).
  destruct (8 <=? String.length p)%nat,
    (authHelpers.test authHelpers.isLower p); cbn; split;
    try reflexivity; lia.
Qed.

Lemma lowercase_password_invalid_witness :
  authHelpers.isValid
    (authHelpers.validatePasswordStrength "correcthorsebatterystaple") = false.
Proof.
  apply (lowercase_password_invalid "correcthorsebatterystaple").
  reflexivity.
Defined.

(** ** middlewares/adminMiddleware.ts *)

Lemma includes_app (l l' : list string) (e : string) :
  adminMiddleware.includes (l ++ l') e
  = adminMiddleware.includes l e || adminMiddleware.includes l' e.
Proof. apply existsb_app. Qed.

Lemma includes_In (l : list string) (e : string) :
  adminMiddleware.includes l e = true <-> In e l.
Proof.
  unfold adminMiddleware.includes. rewrite existsb_exists. split.
  - intros [x [Hin Hx]]. apply String.eqb_eq in Hx. now subst.
  - intros Hin. exists e. split; [assumption | apply String.eqb_refl].
Qed.

(** X20. addAdminEmail grants admin to the address, is idempotent, never
    introduces a duplicate, and changes nobody else's status. *)
Theorem addAdminEmail_grants (l : list string) (e e' : string) :
  adminMiddleware.isAdmin (adminMiddleware.addAdminEmail l e) e = true
  /\ adminMiddleware.addAdminEmail (adminMiddleware.addAdminEmail l e) e
     = adminMiddleware.addAdminEmail l e
  /\ (NoDup l -> NoDup (adminMiddleware.addAdminEmail l e))
  /\ (e' <> e ->
      adminMiddleware.isAdmin (adminMiddleware.addAdminEmail l e) e'
      = adminMiddleware.isAdmin l e').
Proof.
  unfold adminMiddleware.isAdmin, adminMiddleware.addAdminEmail.
  destruct (adminMiddleware.includes l e) eqn:E; cbn [negb].
  - rewrite E. cbn [negb]. repeat split; auto.
  - assert (Hin : adminMiddleware.includes (l ++ [e]) e = true).
    { rewrite includes_app. simpl. rewrite String.eqb_refl.
      now rewrite orb_true_r. }
    rewrite Hin. cbn [negb]. repeat split.
    + intros Hnd. rewrite <- (app_nil_r l) in Hnd.
      apply NoDup_insert_middle; [exact Hnd|]. rewrite app_nil_r.
      intros Hc. apply includes_In in Hc. congruence.
    + intros Hne. rewrite includes_app. simpl.
      apply String.eqb_neq in Hne. rewrite String.eqb_sym, Hne.
      now rewrite !orb_false_r.
Qed.

Lemma removeAdminEmail_In (l : list string) (e x : string) :
  In x (adminMiddleware.removeAdminEmail l e) -> In x l.
Proof.
  induction l as [|y l IH]; simpl; [tauto|].
  destruct (y =? e)%string; simpl; intuition.
Qed.

(** X21. removeAdminEmail takes out the first occurrence only. On a list
    without duplicates the address is no longer admin afterwards and the
    list stays duplicate-free; in any case nobody else's status changes. *)
Theorem removeAdminEmail_revokes (l : list string) (e e' : string) :
  NoDup l ->
  adminMiddleware.isAdmin (adminMiddleware.removeAdminEmail l e) e = false
  /\ NoDup (adminMiddleware.removeAdminEmail l e)
  /\ (e' <> e ->
      adminMiddleware.isAdmin (adminMiddleware.removeAdminEmail l e) e'
      = adminMiddleware.isAdmin l e').
Proof.
  unfold adminMiddleware.isAdmin. intros Hnd.
  induction l as [|y l IH]; simpl.
  - split; [reflexivity|]. split; [constructor | reflexivity].
  - inversion Hnd as [|? ? Hy Hnd']; subst.
    destruct (IH Hnd') as [H1 [H2 H3]].
    destruct (y =? e)%string eqn:E.
    + apply String.eqb_eq in E. subst y. repeat split.
      * destruct (adminMiddleware.includes l e) eqn:Hc; [|reflexivity].
        apply includes_In in Hc. contradiction.
      * assumption.
      * intros Hne. apply String.eqb_neq in Hne.
        rewrite String.eqb_sym, Hne. reflexivity.
    + simpl. rewrite E, H1. repeat split.
      * constructor; [|assumption].
        intros Hc. apply Hy. now apply removeAdminEmail_In in Hc.
      * intros Hne. now rewrite H3.
Qed.

Lemma removeAdminEmail_revokes_witness :
  adminMiddleware.isAdmin
    (adminMiddleware.removeAdminEmail ["admin@example.com"; "a@x.com"]
       "a@x.com") "a@x.com" = false.
Proof.
  apply (removeAdminEmail_revokes ["admin@example.com"; "a@x.com"] "a@x.com"
           "admin@example.com").
  repeat constructor; simpl; intuition discriminate.
Defined.

(** ** middlewares/authMiddleware *)

Lemma split_no_sep (s : string) :
  every notSpace s = true -> authMiddleware.split " " s = [s].
Proof.
  induction s as [|c s IH]; simpl; [reflexivity|].
  intros H. apply andb_true_iff in H as [Hc Hs].
  unfold notSpace in Hc. apply negb_true_iff in Hc. rewrite Hc.
  now rewrite IH.
Qed.

Lemma split_first_sep (s r : string) :
  every notSpace s = true ->
  authMiddleware.split " " (s ++ String " " r)
  = s :: authMiddleware.split " " r.
Proof.
  induction s as [|c s IH]; simpl; [reflexivity|].
  intros H. apply andb_true_iff in H as [Hc Hs].
  unfold notSpace in Hc. apply negb_true_iff in Hc. rewrite Hc.
  now rewrite IH.
Qed.

Lemma bearer_scheme (scheme tok : string) :
  every notSpace scheme = true -> every notSpace tok = true ->
  authMiddleware.bearer (Some (scheme ++ String " " tok))
  = if truthy tok then Some tok else None.
Proof.
  intros Hs Ht. unfold authMiddleware.bearer.
  replace (truthy (scheme ++ String " " tok)) with true
    by (now destruct scheme).
  rewrite split_first_sep, split_no_sep by assumption. reflexivity.
Qed.

(** X22. authenticateToken does not look at the scheme word. For a
    header "<scheme> <token>" with a non-empty token the outcome depends
    on the token alone: any scheme without a space, the empty one
    included, is treated like "Bearer"; a header with no space in it is
    denied with "No token provided". *)
Theorem authenticateToken_ignores_scheme
  (jwt_verify : string -> authMiddleware.JwtResult) (scheme tok : string)
  (tCreated tUpdated : Date) :
  every notSpace scheme = true -> every notSpace tok = true -> tok <> "" ->
  authMiddleware.authenticateToken jwt_verify
    (Some (scheme ++ String " " tok)) tCreated tUpdated
  = authMiddleware.authenticateToken jwt_verify
      (Some ("Bearer" ++ String " " tok)) tCreated tUpdated
  /\ authMiddleware.bearer (Some (scheme ++ String " " tok)) = Some tok
  /\ authMiddleware.authenticateToken jwt_verify (Some tok) tCreated
       tUpdated
     = authMiddleware.Denied Status.UNAUTHORIZED "Access denied"
         "No token provided".
Proof.
  intros Hs Ht Hne. apply truthy_true in Hne.
  unfold authMiddleware.authenticateToken.
  rewrite !bearer_scheme by (assumption || reflexivity). rewrite Hne.
  repeat split.
  unfold authMiddleware.bearer. rewrite Hne, split_no_sep by assumption.
  reflexivity.
Qed.

Lemma authenticateToken_ignores_scheme_witness :
  authMiddleware.bearer (Some ("Basic" ++ String " " "abc.def.ghi"))
  = Some "abc.def.ghi".
Proof.
  apply (authenticateToken_ignores_scheme
           (fun _ => authMiddleware.OtherError) "Basic" "abc.def.ghi" 0 1).
  - reflexivity.
  - reflexivity.
  - discriminate.
Defined.

(** X23. optionalAuth never rejects a request: it always calls [next],
    with the same user authenticateToken would attach when that middleware
    lets the request through, and with no user when it would deny it. *)
Theorem optionalAuth_never_denies
  (jwt_verify : string -> authMiddleware.JwtResult)
  (authorization : option string) (tCreated tUpdated : Date) :
  authMiddleware.optionalAuth jwt_verify authorization tCreated tUpdated
  = match authMiddleware.authenticateToken jwt_verify authorization
            tCreated tUpdated with
    | authMiddleware.Next user => authMiddleware.Next user
    | authMiddleware.Denied _ _ _ => authMiddleware.Next None
    end.
Proof.
  unfold authMiddleware.optionalAuth, authMiddleware.authenticateToken.
  destruct (authMiddleware.bearer authorization) as [t|]; [|reflexivity].
  destruct (jwt_verify t); reflexivity.
Qed.

(** X24. GET /users is reached exactly by requests whose header carries
    a token that verifies and whose e-mail claim is in ADMIN_EMAILS; the
    user table is not consulted. *)
Theorem users_route_admits_iff
  (jwt_verify : string -> authMiddleware.JwtResult)
  (ADMIN_EMAILS : list string) (authorization : option string)
  (tCreated tUpdated : Date) :
  users_route_admits jwt_verify ADMIN_EMAILS authorization tCreated tUpdated
  = true
  <-> exists tok payload,
        authMiddleware.bearer authorization = Some tok
        /\ jwt_verify tok = authMiddleware.Decoded payload
        /\ In (authMiddleware.jwt_email payload) ADMIN_EMAILS.
Proof.
  unfold users_route_admits, authMiddleware.authenticateToken.
  destruct (authMiddleware.bearer authorization) as [t|].
  - destruct (jwt_verify t) as [p| | |] eqn:Hv.
    + unfold adminMiddleware.requireAdmin. cbn [authMiddleware.user_of
        SafeUser.email].
      destruct (adminMiddleware.includes ADMIN_EMAILS
                  (authMiddleware.jwt_email p)) eqn:E; cbn [negb].
      * split; [|reflexivity]. intros _. exists t, p.
        repeat split; [assumption | now apply includes_In].
      * split; [discriminate|]. intros [t' [p' [Ht [Hp Hin]]]].
        injection Ht as <-. rewrite Hv in Hp. injection Hp as <-.
        apply includes_In in Hin. congruence.
    + split; [discriminate|]. intros [t' [p' [Ht [Hp _]]]].
      injection Ht as <-. congruence.
    + split; [discriminate|]. intros [t' [p' [Ht [Hp _]]]].
      injection Ht as <-. congruence.
    + split; [discriminate|]. intros [t' [p' [Ht [Hp _]]]].
      injection Ht as <-. congruence.
  - split; [discriminate|]. intros [t' [p' [Ht _]]]. discriminate.
Qed.

(** ** helpers/validationHelpers: sanitizeString *)

Lemma In_substring0 (n : nat) (s : string) (c : ascii) :
  In c (list_ascii_of_string (String.substring 0 n s)) ->
  In c (list_ascii_of_string s).
Proof.
  revert s. induction n as [|n IH]; intros s; destruct s as [|d s]; simpl;
    try tauto.
  intros [H|H]; [now left | right; now apply IH].
Qed.

Lemma length_substring0 (n : nat) (s : string) :
  (String.length (String.substring 0 n s) <= n)%nat.
Proof.
  revert s. induction n as [|n IH]; intros s; destruct s as [|d s]; simpl;
    try lia.
  specialize (IH s). lia.
Qed.

Lemma In_remove_class (cls : ascii -> bool) (s : string) (c : ascii) :
  In c (list_ascii_of_string (validationHelpers.remove_class cls s)) ->
  cls c = false /\ In c (list_ascii_of_string s).
Proof.
  induction s as [|d s IH]; simpl; [tauto|].
  destruct (cls d) eqn:E; simpl.
  - intros H. destruct (IH H). tauto.
  - intros [H|H]; [subst; tauto|]. destruct (IH H). tauto.
Qed.

Lemma In_trimStart (s : string) (c : ascii) :
  In c (list_ascii_of_string (validationHelpers.trimStart s)) ->
  In c (list_ascii_of_string s).
Proof.
  induction s as [|d s IH]; simpl; [tauto|].
  destruct (validationHelpers.isWhite d); simpl; tauto.
Qed.

Lemma In_trimEnd (s : string) (c : ascii) :
  In c (list_ascii_of_string (validationHelpers.trimEnd s)) ->
  In c (list_ascii_of_string s).
Proof.
  induction s as [|d s IH]; simpl; [tauto|].
  destruct (validationHelpers.trimEnd s) as [|x t].
  - destruct (validationHelpers.isWhite d); simpl; tauto.
  - simpl in *. tauto.
Qed.

(** X25. sanitizeString returns at most 255 characters, none of which is
    an angle bracket or a quote, and every character it returns occurs in
    the input. *)
Theorem sanitizeString_safe (input : string) :
  (String.length (validationHelpers.sanitizeString input) <= 255)%nat
  /\ forall c,
       In c (list_ascii_of_string (validationHelpers.sanitizeString input)) ->
       c <> "<"%char /\ c <> ">"%char /\ c <> "'"%char
       /\ c <> ascii_of_nat 34
       /\ In c (list_ascii_of_string input).
Proof.
  unfold validationHelpers.sanitizeString. split;
    [apply length_substring0|].
  intros c H. apply In_substring0 in H.
  apply In_remove_class in H as [Hq H].
  apply In_remove_class in H as [Ha H].
  unfold validationHelpers.trim in H. apply In_trimEnd, In_trimStart in H.
  unfold validationHelpers.isQuote in Hq.
  unfold validationHelpers.isAngle in Ha.
  apply orb_false_iff in Hq as [Hq1 Hq2].
  apply orb_false_iff in Ha as [Ha1 Ha2].
  apply Ascii.eqb_neq in Hq1, Hq2, Ha1, Ha2. tauto.
Qed.

(** ** Controllers and the store being down *)

Section Outage.

Context {C : Collaborators}.

(** X26. With the database unreachable the service methods do not throw;
    they answer with the generic server error, and the controllers derive
    the status from the success flag alone: login answers 401, signup and
    reset-password 400, forgot-password 500.  Nothing is written. *)
Theorem controllers_when_store_is_down (d : RegisterRequest)
  (rd : ResetPasswordRequest) (e p : string) (r : Z)
  (now t1 t2 t3 dateNow newDate : Date) (w : World) :
  online w = false ->
  AuthController.login e p w
  = (Ok {| auth_status := 401;
           auth_body := failure_with RESPONSE_MESSAGES.SERVER_ERROR
                          (exn_message P1001) |}, w)
  /\ AuthController.signup d now w
     = (Ok {| auth_status := 400;
              auth_body := failure_with RESPONSE_MESSAGES.SERVER_ERROR
                             (exn_message P1001) |}, w)
  /\ AuthController.resetPassword rd t1 t2 t3 w
     = (Ok {| auth_status := 400;
              auth_body := failure_with RESPONSE_MESSAGES.SERVER_ERROR
                             (exn_message P1001) |}, w)
  /\ AuthController.forgotPassword e r dateNow newDate w
     = (Ok {| auth_status := 500;
              auth_body := failure RESPONSE_MESSAGES.SERVER_ERROR |}, w).
Proof.
  intros Hoff. repeat split.
  - unfold AuthController.login, login, findByEmail, try_catch, bind,
      prisma_findUnique. now rewrite Hoff.
  - unfold AuthController.signup, register, findByEmail, try_catch, bind,
      prisma_findUnique. now rewrite Hoff.
  - unfold AuthController.resetPassword, resetPassword, verifyOTP, try_catch,
      bind, prisma_findUnique. now rewrite Hoff.
  - unfold AuthController.forgotPassword, forgotPassword, findByEmail,
      try_catch, bind, prisma_findUnique. now rewrite Hoff.
Qed.

Lemma service_never_throws {A} (m : M A) (h : Exn -> A) (w : World) :
  exists a, fst (try_catch m (fun e => ret (h e)) w) = Ok a.
Proof.
  unfold try_catch, ret. destruct (m w) as [[a|e] w']; simpl; eauto.
Qed.

(** X27. The controllers' own catch branch is never taken. For every
    store and input, login, register, forgotPassword and resetPassword
    return a response instead of throwing, and each controller answers
    with that very response, leaves the store as the service left it, and
    takes its status from the success flag of the response: 200 or 401 for
    login, 201 or 400 for signup, 200 or 500 for forgot-password, 200 or 400
    for reset-password. *)
Theorem controller_status_follows_success (d : RegisterRequest)
  (rd : ResetPasswordRequest) (e p : string) (r : Z)
  (now t1 t2 t3 dateNow newDate : Date) (w : World) :
  (exists b, fst (login e p w) = Ok b
             /\ AuthController.login e p w
                = (Ok {| auth_status := if success b then 200 else 401;
                         auth_body := b |}, snd (login e p w)))
  /\ (exists b, fst (register d now w) = Ok b
                /\ AuthController.signup d now w
                   = (Ok {| auth_status := if success b then 201 else 400;
                            auth_body := b |}, snd (register d now w)))
  /\ (exists b, fst (forgotPassword e r dateNow newDate w) = Ok b
                /\ AuthController.forgotPassword e r dateNow newDate w
                   = (Ok {| auth_status := if success b then 200 else 500;
                            auth_body := b |},
                      snd (forgotPassword e r dateNow newDate w)))
  /\ (exists b, fst (resetPassword rd t1 t2 t3 w) = Ok b
                /\ AuthController.resetPassword rd t1 t2 t3 w
                   = (Ok {| auth_status := if success b then 200 else 400;
                            auth_body := b |},
                      snd (resetPassword rd t1 t2 t3 w))).
Proof.
  repeat split.
  - assert (Hb : exists b, fst (login e p w) = Ok b)
      by apply service_never_throws.
    destruct Hb as [b Hb]. exists b. split; [exact Hb|].
    unfold AuthController.login, try_catch at 1, bind.
    rewrite (surjective_pairing (login e p w)), Hb. reflexivity.
  - assert (Hb : exists b, fst (register d now w) = Ok b)
      by apply service_never_throws.
    destruct Hb as [b Hb]. exists b. split; [exact Hb|].
    unfold AuthController.signup, try_catch at 1, bind.
    rewrite (surjective_pairing (register d now w)), Hb. reflexivity.
  - assert (Hb : exists b, fst (forgotPassword e r dateNow newDate w) = Ok b)
      by apply service_never_throws.
    destruct Hb as [b Hb]. exists b. split; [exact Hb|].
    unfold AuthController.forgotPassword, try_catch at 1, bind.
    rewrite (surjective_pairing (forgotPassword e r dateNow newDate w)), Hb.
    reflexivity.
  - assert (Hb : exists b, fst (resetPassword rd t1 t2 t3 w) = Ok b)
      by apply service_never_throws.
    destruct Hb as [b Hb]. exists b. split; [exact Hb|].
    unfold AuthController.resetPassword, try_catch at 1, bind.
    rewrite (surjective_pairing (resetPassword rd t1 t2 t3 w)), Hb.
    reflexivity.
Qed.

(** X28. A delivery failure never overwrites a challenge. When the mail
    transport fails, forgotPassword writes nothing, whatever e-mail is
    submitted, and for an existing account it answers EMAIL_SEND_FAILED; a
    code stored by an earlier request stays valid. *)
Theorem forgotPassword_mail_failure_keeps_store (e : string) (r : Z)
  (dateNow newDate : Date) (w : World) :
  (forall o, exists err, sendMail o = Throw err) ->
  snd (forgotPassword e r dateNow newDate w) = w
  /\ (online w = true ->
      forall u, find (matches (ByEmail e)) (rows w) = Some u ->
      fst (forgotPassword e r dateNow newDate w)
      = Ok (failure RESPONSE_MESSAGES.EMAIL_SEND_FAILED)).
Proof.
  intros Hmail.
  assert (Hrun : online w = true ->
                 forall u, find (matches (ByEmail e)) (rows w) = Some u ->
                 forgotPassword e r dateNow newDate w
                 = (Ok (failure RESPONSE_MESSAGES.EMAIL_SEND_FAILED), w)).
  { intros Hon u Hf.
    unfold forgotPassword, findByEmail, try_catch, bind, prisma_findUnique.
    rewrite Hon, Hf. unfold sendOTPEmail.
    destruct (Hmail {| to := e;
                       subject := "Password Reset - OTP Verification";
                       text := generatePlainTextEmail (name u)
                                 (generateOTP r) |}) as [err ->].
    reflexivity. }
  split.
  - destruct (online w) eqn:Hon.
    + destruct (find (matches (ByEmail e)) (rows w)) as [u|] eqn:Hf.
      * now rewrite (Hrun eq_refl u eq_refl).
      * unfold forgotPassword, findByEmail, try_catch, bind,
          prisma_findUnique. now rewrite Hon, Hf.
    + unfold forgotPassword, findByEmail, try_catch, bind,
        prisma_findUnique. now rewrite Hon.
  - intros Hon u Hf. now rewrite (Hrun Hon u Hf).
Qed.

End Outage.

Lemma controllers_when_store_is_down_witness :
  AuthController.login (C:=demo) "a@x.com" "secret1" (set_online false world0)
  = (Ok {| auth_status := 401;
           auth_body := failure_with RESPONSE_MESSAGES.SERVER_ERROR
                          (exn_message P1001) |}, set_online false world0).
Proof.
  apply (controllers_when_store_is_down (C:=demo)
           {| rr_name := "Al"; rr_email := "a@x.com"; rr_password := "x" |}
           {| rp_email := "a@x.com"; rp_otp := "123456";
              rp_newPassword := "y" |}
           "a@x.com" "secret1" 123456 0 0 0 0 0 0
           (set_online false world0)).
  reflexivity.
Defined.

Lemma forgotPassword_mail_failure_keeps_store_witness :
  snd (forgotPassword (C:=demo_mail_down) "a@x.com" 123456 1000 1001 world0)
  = world0.
Proof.
  apply (forgotPassword_mail_failure_keeps_store (C:=demo_mail_down)
           "a@x.com" 123456 1000 1001 world0).
  intros o. eexists. reflexivity.
Defined.

Lemma addAdminEmail_grants_witness :
  adminMiddleware.isAdmin
    (adminMiddleware.addAdminEmail ["admin@example.com"] "a@x.com") "a@x.com"
  = true
  /\ NoDup (adminMiddleware.addAdminEmail ["admin@example.com"] "a@x.com")
  /\ adminMiddleware.isAdmin
       (adminMiddleware.addAdminEmail ["admin@example.com"] "a@x.com")
       "g@x.com"
     = adminMiddleware.isAdmin ["admin@example.com"] "g@x.com".
Proof.
  destruct (addAdminEmail_grants ["admin@example.com"] "a@x.com" "g@x.com")
    as [H1 [_ [H3 H4]]].
  split; [exact H1|]. split.
  - apply H3. repeat constructor. simpl. tauto.
  - apply H4. discriminate.
Defined.

Lemma sanitizeString_safe_witness :
  (String.length (validationHelpers.sanitizeString " <a'> ") <= 255)%nat
  /\ "a"%char <> "<"%char.
Proof.
  destruct (sanitizeString_safe " <a'> ") as [Hl Hc].
  split; [exact Hl|]. apply (Hc "a"%char). left. reflexivity.
Defined.
